(** * dsst-defacing-pipeline: the orchestration code, embedded and checked

    A shallow embedding of [src/register.py], [src/deface.py] and the driver
    [src/dsst_defacing_wf.py], followed by the properties of the design
    document that concern them (C1 to C10).

    The external tools (AFNI, FSL, [rm], [cp], [swarm]) are opaque: a command
    line handed to the shell may change the directory tree in any way and
    report anything.  What the Python code itself does with strings, paths,
    the directory tree and its control flow is modelled as written, Python
    exceptions included. *)

From Stdlib Require Import String Ascii List Bool Arith Lia.
From Stdlib Require Import ZArith DecimalString.
Import ListNotations.
Open Scope list_scope.
Open Scope string_scope.

(** ** Python [str] operations used by the pipeline *)

Module Py.

Definition nl : string := String (ascii_of_nat 10) "".

(** [s.split(c)] for a one-character separator: never the empty list. *)
Fixpoint split (c : ascii) (s : string) : list string :=
  match s with
  | EmptyString => [""]
  | String a r =>
      if Ascii.eqb a c then "" :: split c r
      else match split c r with
           | h :: t => String a h :: t
           | [] => [String a ""]
           end
  end.

(** [re.split(r'c|d', s)] for two one-character alternatives. *)
Fixpoint split2 (c d : ascii) (s : string) : list string :=
  match s with
  | EmptyString => [""]
  | String a r =>
      if Ascii.eqb a c || Ascii.eqb a d then "" :: split2 c d r
      else match split2 c d r with
           | h :: t => String a h :: t
           | [] => [String a ""]
           end
  end.

(** [s.startswith(p)] *)
Fixpoint startswith (s p : string) : bool :=
  match p, s with
  | EmptyString, _ => true
  | String _ _, EmptyString => false
  | String b p', String a s' => Ascii.eqb a b && startswith s' p'
  end.

(** [s.endswith(p)] *)
Definition endswith (s p : string) : bool :=
  Nat.leb (String.length p) (String.length s) &&
  String.eqb (substring (String.length s - String.length p) (String.length p) s) p.

(** [p in s] for strings; the factor test behind the glob [*p*]. *)
Fixpoint contains (s p : string) : bool :=
  startswith s p ||
  match s with
  | EmptyString => false
  | String _ s' => contains s' p
  end.

(** [c not in s] for a character [c]. *)
Fixpoint lacks (c : ascii) (s : string) : bool :=
  match s with
  | EmptyString => true
  | String a r => negb (Ascii.eqb a c) && lacks c r
  end.

(** [sep.join(l)] *)
Definition join (sep : string) (l : list string) : string := String.concat sep l.

(** Truth value of a string: [if err:]. *)
Definition truthy (s : string) : bool := negb (String.eqb s "").

(** Truth value of a value that is [None] or a string: [if primary_t1:]. *)
Definition truthy_opt (o : option string) : bool :=
  match o with
  | Some s => truthy s
  | None => false
  end.

(** [f"{x}"] for a value that is [None] or a string. *)
Definition fmt_opt (o : option string) : string :=
  match o with
  | Some s => s
  | None => "None"
  end.

End Py.

(** ** [pathlib] paths (POSIX flavour)

  A path is its anchor and its components.  Parsing drops empty and [.]
  components and keeps [..], as [PurePosixPath] does.  (A path that starts
  with exactly two slashes keeps them in Python; it is read here as an
  absolute path.) *)

Record Path : Type := mkPath { anchored : bool; parts : list string }.

Module PathLib.

Definition keep_part (s : string) : bool :=
  negb (String.eqb s "" || String.eqb s ".").

(** [Path(s)] *)
Definition of_str (s : string) : Path :=
  mkPath (Py.startswith s "/") (filter keep_part (Py.split "/" s)).

(** [str(p)], [fspath(p)], [f"{p}"] *)
Definition to_str (p : Path) : string :=
  if anchored p then "/" ++ Py.join "/" (parts p)
  else match parts p with
       | [] => "."
       | _ => Py.join "/" (parts p)
       end.

(** [p.name] *)
Definition name (p : Path) : string := last (parts p) "".

(** [p.parent] *)
Definition parent (p : Path) : Path := mkPath (anchored p) (removelast (parts p)).

(** [p / q], [p.joinpath(q)]: an absolute right operand replaces the left. *)
Definition join (p q : Path) : Path :=
  if anchored q then q else mkPath (anchored p) (parts p ++ parts q)%list.

(** [p / s] for a string [s] *)
Definition join_str (p : Path) (s : string) : Path := join p (of_str s).

Definition eqb (p q : Path) : bool :=
  Bool.eqb (anchored p) (anchored q) &&
  if list_eq_dec string_dec (parts p) (parts q) then true else false.

(** [f"{x}"] for a value that is [None] or a path. *)
Definition fmt_opt (o : option Path) : string :=
  match o with
  | Some p => to_str p
  | None => "None"
  end.

End PathLib.

Declare Scope path_scope.
Delimit Scope path_scope with path.
Infix "//" := PathLib.join_str (at level 40, left associativity) : path_scope.
Open Scope path_scope.

(** ** The directory tree

    An ordered listing of entries.  The order stands for the order in which
    the operating system enumerates a directory, which [glob] inherits and
    the code depends on ([workdir_list[0]]); [rglob] is given the same order
    instead of a walk directory by directory.  Paths are compared as
    written: the current directory, permissions and I/O errors are outside
    the model.  A symbolic link is an entry of its own and is not followed;
    the pipeline makes links under [defacing_QC] only and reads none. *)

Inductive node : Type :=
| Dir
| File (content : string)
| Link (target : Path).

Definition FS : Type := list (Path * node).

(** Python exceptions that the modelled code can raise. *)
Inductive exn : Type :=
| TypeError
| IndexError
| KeyError
| ValueError
| NameError
| OSError
| NonZeroReturnCode.

Inductive result (A : Type) : Type :=
| Ok (a : A)
| Raise (e : exn).
Arguments Ok {A} a.
Arguments Raise {A} e.

Module Fs.

Definition lookup (p : Path) (fs : FS) : option node :=
  match find (fun e => PathLib.eqb (fst e) p) fs with
  | Some e => Some (snd e)
  | None => None
  end.

(** [p.exists()], when [stat] meets no other error than a missing file. *)
Definition exists_ (p : Path) (fs : FS) : bool :=
  match lookup p fs with
  | Some _ => true
  | None => false
  end.

(** An entry that is not a directory. *)
Definition in_the_way (p : Path) (fs : FS) : bool :=
  match lookup p fs with
  | Some Dir | None => false
  | Some _ => true
  end.

Definition is_child (d k : Path) : bool :=
  match parts k with
  | [] => false
  | _ => PathLib.eqb (PathLib.parent k) d
  end.

Fixpoint strict_prefix (l k : list string) : bool :=
  match l, k with
  | [], _ :: _ => true
  | a :: l', b :: k' => String.eqb a b && strict_prefix l' k'
  | _, [] => false
  end.

Definition is_under (d k : Path) : bool :=
  Bool.eqb (anchored d) (anchored k) && strict_prefix (parts d) (parts k).

(** The entries of directory [d], in listing order. *)
Definition children (d : Path) (fs : FS) : list Path :=
  map fst (filter (fun e => is_child d (fst e)) fs).

(** [d.glob(pattern)] for a pattern without a slash, given as a test on the
    entry name. *)
Definition glob (d : Path) (matches : string -> bool) (fs : FS) : list Path :=
  filter (fun k => matches (PathLib.name k)) (children d fs).

(** [d.rglob(pattern)]: the same test at any depth below [d]. *)
Definition rglob (d : Path) (matches : string -> bool) (fs : FS) : list Path :=
  filter (fun k => matches (PathLib.name k))
         (map fst (filter (fun e => is_under d (fst e)) fs)).

(** [p], its parent, ..., outermost first; the anchor itself is left out. *)
Fixpoint chain (a : bool) (done todo : list string) : list Path :=
  match todo with
  | [] => []
  | x :: todo' => mkPath a (done ++ [x])%list :: chain a (done ++ [x])%list todo'
  end.

Definition lineage (p : Path) : list Path := chain (anchored p) [] (parts p).

(** [p.mkdir(parents=True, exist_ok=True)] *)
Definition mkdir_p (p : Path) (fs : FS) : result FS :=
  if existsb (fun q => in_the_way q fs) (lineage p) then Raise OSError
  else Ok (fs ++ map (fun q => (q, Dir))
                     (filter (fun q => negb (exists_ q fs)) (lineage p)))%list.

Definition is_dir_node (n : node) : bool :=
  match n with
  | Dir => true
  | _ => false
  end.

Definition same_kind (a b : node) : bool := Bool.eqb (is_dir_node a) (is_dir_node b).

Definition rebase (src dst k : Path) : Path :=
  if PathLib.eqb k src || is_under src k
  then mkPath (anchored dst) (parts dst ++ skipn (List.length (parts src)) (parts k))%list
  else k.

(** [src.rename(dst)] *)
Definition rename (src dst : Path) (fs : FS) : result FS :=
  match lookup src fs with
  | None => Raise OSError
  | Some n =>
      if PathLib.eqb src dst then Ok fs
      else
        let moved := map (fun e => (rebase src dst (fst e), snd e))
                         (filter (fun e => negb (PathLib.eqb (fst e) dst)) fs) in
        match lookup dst fs with
        | None => Ok moved
        | Some m =>
            if same_kind n m && match children dst fs with [] => true | _ => false end
            then Ok moved
            else Raise OSError
        end
  end.

(** [open(p, 'rb').read()] *)
Definition read_file (p : Path) (fs : FS) : result string :=
  match lookup p fs with
  | Some (File c) => Ok c
  | _ => Raise OSError
  end.

Definition parent_ready (p : Path) (fs : FS) : bool :=
  match parts (PathLib.parent p) with
  | [] => true
  | _ => match lookup (PathLib.parent p) fs with
         | Some Dir => true
         | _ => false
         end
  end.

Fixpoint put (p : Path) (c : string) (fs : FS) : FS :=
  match fs with
  | [] => [(p, File c)]
  | e :: fs' => if PathLib.eqb (fst e) p then (p, File c) :: fs' else e :: put p c fs'
  end.

(** [open(p, 'w')] followed by writing [c]: creates or truncates. *)
Definition write_file (p : Path) (c : string) (fs : FS) : result FS :=
  match parts p with
  | [] => Raise OSError
  | _ =>
      if negb (parent_ready p fs) then Raise OSError
      else match lookup p fs with
           | Some Dir => Raise OSError
           | _ => Ok (put p c fs)
           end
  end.

(** [shutil.rmtree(p)] *)
Definition rmtree (p : Path) (fs : FS) : result FS :=
  match lookup p fs with
  | Some Dir => Ok (filter (fun e => negb (PathLib.eqb (fst e) p || is_under p (fst e))) fs)
  | _ => Raise OSError
  end.

Definition is_dir (p : Path) (fs : FS) : bool :=
  match lookup p fs with
  | Some Dir => true
  | _ => false
  end.

(** [p.is_symlink()] *)
Definition is_symlink (p : Path) (fs : FS) : bool :=
  match lookup p fs with
  | Some (Link _) => true
  | _ => false
  end.

(** [p.symlink_to(target)] *)
Definition symlink_to (p target : Path) (fs : FS) : result FS :=
  if exists_ p fs || negb (parent_ready p fs) then Raise OSError
  else Ok (fs ++ [(p, Link target)])%list.

(** [shutil.copy2(src, dst)]: into [dst] when it is a directory. *)
Definition copy2 (src dst : Path) (fs : FS) : result FS :=
  match lookup src fs with
  | Some (File c) =>
      let real_dst := if is_dir dst fs then PathLib.join_str dst (PathLib.name src) else dst in
      if PathLib.eqb src real_dst then Raise OSError else write_file real_dst c fs
  | _ => Raise OSError
  end.

(** [shutil.move(src, dst)]: into [dst] when it is a directory. *)
Definition move (src dst : Path) (fs : FS) : result FS :=
  if is_dir dst fs then
    let real_dst := PathLib.join_str dst (PathLib.name src) in
    if exists_ real_dst fs then Raise OSError else rename src real_dst fs
  else rename src dst fs.

Fixpoint strip (base l : list string) : option (list string) :=
  match base, l with
  | [], _ => Some l
  | b :: base', x :: l' => if String.eqb b x then strip base' l' else None
  | _ :: _, [] => None
  end.

(** [p.relative_to(base)] *)
Definition relative_to (p base : Path) : result Path :=
  if Bool.eqb (anchored p) (anchored base) then
    match strip (parts base) (parts p) with
    | Some l => Ok (mkPath false l)
    | None => Raise ValueError
    end
  else Raise ValueError.

End Fs.

(** ** The world and the monad of the pipeline *)

Inductive level : Type := INFO | ERROR | STDOUT.

Record World : Type := mkWorld {
  fs : FS;                             (* the directory tree *)
  shell_log : list string;             (* command lines run, oldest first *)
  messages : list (level * string);    (* logger and print output, oldest first *)
  reorganized : list Path;             (* anat directories the reorganizer has entered *)
  stat_error : Path -> FS -> option string
    (* for a path the tree does not hold: the error of [stat], when it is
       another one than "no such file" ([EACCES], [ENAMETOOLONG], ...) *)
}.

Definition M (A : Type) : Type := World -> World * result A.

Definition ret {A} (a : A) : M A := fun w => (w, Ok a).

Definition raise {A} (e : exn) : M A := fun w => (w, Raise e).

Definition bind {A B} (m : M A) (k : A -> M B) : M B :=
  fun w => match m w with
           | (w', Ok a) => k a w'
           | (w', Raise e) => (w', Raise e)
           end.

Declare Scope pipeline_scope.
Delimit Scope pipeline_scope with pipeline.
Notation "x <- m ;; k" := (bind m (fun x => k))
  (at level 61, m at next level, right associativity) : pipeline_scope.
Notation "m ;;; k" := (bind m (fun _ => k))
  (at level 61, right associativity) : pipeline_scope.
Open Scope pipeline_scope.

Definition say (l : level) (msg : string) : M unit :=
  fun w => (mkWorld (fs w) (shell_log w) (messages w ++ [(l, msg)])%list (reorganized w)
                    (stat_error w), Ok tt).

Definition get_fs : M FS := fun w => (w, Ok (fs w)).

(** A file-system operation that may raise. *)
Definition on_fs (op : FS -> result FS) : M unit :=
  fun w => match op (fs w) with
           | Ok fs' =>
               (mkWorld fs' (shell_log w) (messages w) (reorganized w) (stat_error w), Ok tt)
           | Raise e => (w, Raise e)
           end.

Definition lift {A} (r : result A) : M A := fun w => (w, r).

(** [p.exists()] with the errors of [stat]: pathlib answers [False] where the
    path is not there, and lets an [OSError] of another kind through. *)
Definition path_exists (p : Path) : M bool :=
  fun w => if Fs.exists_ p (fs w) then (w, Ok true)
           else match stat_error w p (fs w) with
                | Some _ => (w, Raise OSError)
                | None => (w, Ok false)
                end.

(** [str(err)] of the error that [p.exists()] raises. *)
Definition stat_error_text (p : Path) : M string :=
  fun w => (w, Ok (match stat_error w p (fs w) with
                   | Some text => text
                   | None => ""
                   end)).

(** [try: body / except OSError: handler] *)
Definition try_except_OSError {A} (body handler : M A) : M A :=
  fun w => match body w with
           | (w', Raise OSError) => handler w'
           | r => r
           end.

(** [l[i]] *)
Definition index {A} (l : list A) (i : nat) : M A :=
  match nth_error l i with
  | Some a => ret a
  | None => raise IndexError
  end.

(** [for x in l: body], the body running to its end each time. *)
Fixpoint for_each {A} (l : list A) (body : A -> M unit) : M unit :=
  match l with
  | [] => ret tt
  | x :: l' => body x ;;; for_each l' body
  end.

(** [for x in l: body] inside a function, where the body may [return v]
    ([Some v]); falling off the end of the loop gives [None]. *)
Fixpoint for_return {A R} (l : list A) (body : A -> M (option R)) : M (option R) :=
  match l with
  | [] => ret None
  | x :: l' => r <- body x ;;
               match r with
               | Some v => ret (Some v)
               | None => for_return l' body
               end
  end.

(** ** The mapping of scans ([generate_mappings.crawl], an input here)

    [{subject: {primary_t1, others}}] without sessions,
    [{subject: {session: {primary_t1, others}}}] with them.  Scans are
    strings, a missing primary is [None]. *)

Record scans : Type := mkScans {
  primary_t1 : option string;
  others : list string
}.

Inductive subject_entry : Type :=
| Flat (u : scans)
| Sessions (l : list (string * scans)).

Definition mapping : Type := list (string * subject_entry).

(** [d[k]] on the association list of a dict. *)
Fixpoint getitem {V} (d : list (string * V)) (k : string) : M V :=
  match d with
  | [] => raise KeyError
  | (k', v) :: d' => if String.eqb k' k then ret v else getitem d' k
  end.

(** [d.keys()] of a subject's entry. *)
Definition entry_keys (e : subject_entry) : list string :=
  match e with
  | Flat _ => ["primary_t1"; "others"]
  | Sessions l => map fst l
  end.

(** [mapping_dict[subj_id]['primary_t1']] and [...['others']] *)
Definition flat_scans (m : mapping) (subj_id : string) : M scans :=
  e <- getitem m subj_id ;;
  match e with
  | Flat u => ret u
  | Sessions _ => raise KeyError   (* session keys are not 'primary_t1' *)
  end.

(** [mapping_dict[subj_id][sess_id]['primary_t1']] and [...['others']] *)
Definition session_scans (m : mapping) (subj_id sess_id : string) : M scans :=
  e <- getitem m subj_id ;;
  match e with
  | Flat u =>
      if String.eqb sess_id "primary_t1" || String.eqb sess_id "others"
      then raise TypeError else raise KeyError
  | Sessions l => getitem l sess_id
  end.

Record outcome : Type := mkOutcome {
  out : string;
  err : string;
  returncode : nat
}.

Section Pipeline.

(** The shell: a command line, run synchronously, turns the tree into another
    and yields the captured output, the error text and the return code. *)
Variable shell : string -> FS -> FS * outcome.

(** [utils.run_command] is not among the sources; [deface.py] uses it as a
    function from a command line to the pair [(out, err)]. *)
Definition utils_run_command (cmd : string) : M (string * string) :=
  fun w => let '(fs', o) := shell cmd (fs w) in
           (mkWorld fs' (shell_log w ++ [cmd])%list (messages w) (reorganized w) (stat_error w),
            Ok (out o, err o)).

(** *** register.py *)

(** [register.run_command(cmdstr, logfile)]: [subprocess.run] without
    [check]; the outcome of the command is dropped. *)
Definition register_run_command (cmdstr : string) : M unit :=
  fun w => let '(fs', _) := shell cmdstr (fs w) in
           (mkWorld fs' (shell_log w ++ [cmdstr])%list (messages w) (reorganized w)
                    (stat_error w), Ok tt).

Definition facemask_cmd (fmask_path : Path) : string :=
  let prefix := PathLib.parent fmask_path // "afni_facemask" in
  let defacemask := PathLib.parent fmask_path // "afni_defacemask.nii.gz" in
  let c1 := "fslroi " ++ PathLib.to_str fmask_path ++ " " ++ PathLib.to_str prefix ++ " 1 1" in
  let c2 := "fslmaths " ++ PathLib.to_str prefix ++ ".nii.gz -abs -binv "
            ++ PathLib.to_str defacemask in
  Py.join "; " [c1; c2].

(** [preprocess_facemask]: the value is [None] when [exists] answers
    [False], since the function then runs to its end; the [except] arm is
    taken when [exists] itself raises. *)
Definition preprocess_facemask (fmask_path : Path) : M (option Path) :=
  let defacemask := PathLib.parent fmask_path // "afni_defacemask.nii.gz" in
  say STDOUT ("Generating a defacemask... " ++ Py.nl ++ " ") ;;;
  register_run_command (facemask_cmd fmask_path) ;;;
  try_except_OSError
    (found <- path_exists defacemask ;;
     if found then ret (Some defacemask) else ret None)
    (err <- stat_error_text defacemask ;;
     say STDOUT ("OS Error: " ++ err) ;;;
     say STDOUT "Cannot find the binarized facemask. Please check is fsl module is loaded before running the script again." ;;;
     raise OSError).

Definition get_intermediate_filenames (outdir : Path) (prefix : string)
  : string * string * string * string :=
  let mat := PathLib.to_str (outdir // prefix) ++ "_reg.mat" in
  let reg_out := PathLib.to_str (outdir // prefix) ++ "_registered.nii.gz" in
  let mask := PathLib.to_str (outdir // prefix) ++ "_mask.nii.gz" in
  let defaced_out := PathLib.to_str (outdir // prefix) ++ "_defaced.nii.gz" in
  (mat, reg_out, mask, defaced_out).

(** The four command lines of one secondary scan, in the order of the
    source: copy, registration, transform of the mask, masking. *)
Definition scan_cmds (afni_workdir primary_scan : Path) (t1_mask : option Path)
  (other : Path) : list string :=
  let other_prefix := hd "" (Py.split "." (PathLib.name other)) in
  let other_outdir := afni_workdir // other_prefix in
  let '(matrix, reg_out, other_mask, other_defaced) :=
    get_intermediate_filenames other_outdir other_prefix in
  let cp_cmd := "cp " ++ PathLib.to_str other ++ " "
                ++ PathLib.to_str (other_outdir // other_prefix) in
  let flirt_cmd := "flirt -dof 6 -cost mutualinfo -searchcost mutualinfo -in "
                   ++ PathLib.to_str primary_scan ++ " -ref " ++ PathLib.to_str other
                   ++ " -omat " ++ matrix ++ " -out " ++ reg_out in
  let applyxfm_cmd := "flirt -interp nearestneighbour -applyxfm -init " ++ matrix
                      ++ " -in " ++ PathLib.fmt_opt t1_mask ++ " -ref "
                      ++ PathLib.to_str other ++ " -out " ++ other_mask in
  let mask_cmd := "fslmaths " ++ PathLib.to_str other ++ " -mas " ++ other_mask
                  ++ " " ++ other_defaced in
  [cp_cmd; flirt_cmd; applyxfm_cmd; mask_cmd].

(** The body of the loop over [other_scans_list]. *)
Definition register_one (subj_dir afni_workdir primary_scan : Path)
  (t1_mask : option Path) (other : string) : M unit :=
  let entities := Py.split "_" other in
  e1 <- index entities 1 ;;
  let other := subj_dir // e1 // "anat" // other in
  let other_prefix := hd "" (Py.split "." (PathLib.name other)) in
  let other_outdir := afni_workdir // other_prefix in
  on_fs (Fs.mkdir_p other_outdir) ;;;
  let full_cmd :=
    Py.join " ; " (scan_cmds afni_workdir primary_scan t1_mask other) ++ Py.nl in
  say STDOUT ("Registering " ++ PathLib.name other ++ " to " ++ PathLib.name primary_scan
              ++ " and applying defacemask...") ;;;
  register_run_command full_cmd.

Definition register_to_primary_scan (subj_dir afni_workdir primary_scan : Path)
  (other_scans_list : list string) : M unit :=
  let raw_facemask_volumes := afni_workdir // "tmp.05.sh_t2a_thr.nii" in
  t1_mask <- preprocess_facemask raw_facemask_volumes ;;
  for_each other_scans_list (register_one subj_dir afni_workdir primary_scan t1_mask).

(** *** deface.py

    [generate_3d_renders] is called nowhere; it is embedded apart, after the
    driver.  The loggers come from [utils.setup_logger], which is not among the sources: what
    they are told is kept in [messages], the log files are not modelled. *)

(** The names that [rename_afni_workdir] keeps: [f.name.startswith('__work')
    or f.name.endswith(('QC', 'defacing_pipeline.log'))]. *)
Definition kept_name (n : string) : bool :=
  Py.startswith n "__work" || Py.endswith n "QC" || Py.endswith n "defacing_pipeline.log".

Definition to_be_deleted_files (workdir_path : Path) (tree : FS) : list string :=
  map PathLib.to_str
      (filter (fun f => negb (kept_name (PathLib.name f)))
              (Fs.glob (PathLib.parent workdir_path) (fun _ => true) tree)).

Definition rename_afni_workdir (workdir_path : Path) : M Path :=
  say INFO ("Removing unwanted files and renaming AFNI workdirs" ++ Py.nl) ;;;
  default_prefix <- index (Py.split "." (PathLib.name workdir_path)) 1 ;;
  tree <- get_fs ;;
  oe <- utils_run_command ("rm -rf " ++ Py.join " " (to_be_deleted_files workdir_path tree)) ;;
  (if Py.truthy (snd oe)
   then say ERROR ("Error in removing intermediate files: " ++ snd oe)
   else ret tt) ;;;
  say INFO ("Intermediate files removed." ++ Py.nl) ;;;
  let new_workdir_path := PathLib.parent workdir_path // ("workdir_" ++ default_prefix) in
  on_fs (Fs.rename workdir_path new_workdir_path) ;;;
  ret new_workdir_path.

(** [gzip] compression of a byte string; which bytes it yields is not
    modelled. *)
Variable gzip_bytes : string -> string.

Definition compress_to_gz (input_file output_file : Path) : M unit :=
  tree <- get_fs ;;
  if negb (Fs.exists_ output_file tree) then
    content <- lift (Fs.read_file input_file tree) ;;
    on_fs (Fs.write_file output_file (gzip_bytes content))
  else ret tt.

(** The acquisition label as lines 137-142 compute it, one token after the
    other: each token assigns [acq], in either arm of the [if].  [None]
    stands for the variable before its first assignment.  A token that
    starts with [acq-] has a part after the hyphen, so [split('-')[1]]
    does not raise. *)
Definition acq_step (acq : option string) (i : string) : option string :=
  if Py.startswith i "acq-" then Some (nth 1 (Py.split "-" i) "") else Some "".

Definition acq_of_entities (entities : list string) : option string :=
  fold_left acq_step entities None.

Definition refacer_cmd (primary_t1 : option string) (target : Path) (mode : string) : string :=
  let refacer_cmd := "@afni_refacer_run -input " ++ Py.fmt_opt primary_t1
                     ++ " -mode_deface -no_clean -prefix " ++ PathLib.to_str target in
  if String.eqb mode "aggressive"
  then refacer_cmd ++ " -shell afni_refacer_shell_sym_2.0.nii.gz"
  else refacer_cmd.

(** The body of [for primary in all_primaries], which ends in [return]. *)
Definition reface_one (primary_t1 : option string) (all_others : list string)
  (subj_input_dir : Path) (sess_id : string) (output_dir : Path) (mode : string)
  (primary : string) : M (option string) :=
  let subj_id := PathLib.name subj_input_dir in
  let primary := PathLib.of_str primary in
  let entities := Py.split "_" (PathLib.name primary) in
  match acq_of_entities entities with
  | None => raise NameError    (* unassigned [acq]: [split] never gives [] *)
  | Some acq =>
      let subj_output_dir := output_dir // subj_id // sess_id // "anat" // acq in
      tree <- get_fs ;;
      (if negb (Fs.exists_ subj_output_dir tree)
       then on_fs (Fs.mkdir_p subj_output_dir) else ret tt) ;;;
      let prefix := hd "" (Py.split "." (PathLib.name primary)) in
      let cmd := refacer_cmd primary_t1 (subj_output_dir // prefix) mode in
      say INFO ("Running @afni_refacer_run on " ++ PathLib.name primary ++ Py.nl) ;;;
      say INFO ("Command: " ++ cmd) ;;;
      oe <- utils_run_command cmd ;;
      (if Py.truthy (snd oe)
       then say ERROR ("Error running @afni_refacer_run on " ++ PathLib.name primary
                       ++ Py.nl ++ snd oe)
       else say INFO ("@afni_refacer_run command completed on " ++ PathLib.name primary
                      ++ Py.nl)) ;;;
      tree <- get_fs ;;
      let workdir_list := Fs.glob subj_output_dir (fun n => Py.contains n "work_refacer") tree in
      match workdir_list with
      | workdir :: _ =>
          new_afni_workdir <- rename_afni_workdir workdir ;;
          register_to_primary_scan subj_input_dir new_afni_workdir primary all_others ;;;
          ret (Some "")
      | [] =>
          say ERROR "@afni_refacer_run work directory not found. Most probably because the refacer command failed." ;;;
          ret (Some prefix)
      end
  end.

(** [run_afni_refacer]: [Some s] is the returned string, [None] is Python's
    [None], returned when there is nothing to loop over. *)
Definition run_afni_refacer (primary_t1 : option string) (others : list string)
  (subj_input_dir : Path) (sess_id : string) (output_dir : Path) (mode : string)
  : M (option string) :=
  let '(all_primaries, all_others) :=
    match primary_t1 with
    | Some p => if Py.truthy p then ([p], others) else (others, [])
    | None => (others, [])
    end in
  for_return all_primaries
             (reface_one primary_t1 all_others subj_input_dir sess_id output_dir mode).

Definition copy_over_sidecar (scan_filepath input_anat_dir output_anat_dir : Path) : M unit :=
  let prefix :=
    Py.join "_" (filter (fun i => negb (String.eqb i "defaced" || String.eqb i "nii"
                                        || String.eqb i "gz"))
                        (Py.split2 "_" "." (PathLib.name scan_filepath))) in
  let filename := prefix ++ ".json" in
  on_fs (Fs.copy2 (input_anat_dir // filename) (output_anat_dir // filename)).

(** One scan of the QC staging (the body of the loop of lines 65-76). *)
Definition vqcdeface_link (bids_input_dir defacing_qc_dir defaced_img : Path) : M unit :=
  let entities := Py.split "_" (hd "" (Py.split "." (PathLib.name defaced_img))) in
  let vqcd_subj_dir := defacing_qc_dir // Py.join "/" entities in
  on_fs (Fs.mkdir_p vqcd_subj_dir) ;;;
  let defaced_link := vqcd_subj_dir // "defaced.nii.gz" in
  tree <- get_fs ;;
  (if negb (Fs.is_symlink defaced_link tree)
   then on_fs (Fs.symlink_to defaced_link defaced_img) else ret tt) ;;;
  tree <- get_fs ;;
  let found := Fs.rglob bids_input_dir (String.eqb (PathLib.name defaced_img)) tree in
  say STDOUT (Py.join ", " (map PathLib.to_str found)) ;;;
  img <- index found 0 ;;
  let img_link := vqcd_subj_dir // "orig.nii.gz" in
  tree <- get_fs ;;
  if negb (Fs.is_symlink img_link tree)
  then on_fs (Fs.symlink_to img_link img) else ret tt.

Definition vqcdeface_prep (bids_input_dir defaced_anat_dir bids_defaced_outdir : Path) : M unit :=
  let defacing_qc_dir := PathLib.parent bids_defaced_outdir // "defacing_QC" in
  tree <- get_fs ;;
  let interested_files :=
    filter (fun f => negb (existsb (String.eqb "work_dir") (Py.split "/" (PathLib.to_str f))))
           (Fs.rglob defaced_anat_dir (fun n => Py.endswith n ".nii.gz") tree) in
  for_each interested_files (vqcdeface_link bids_input_dir defacing_qc_dir).

(** One volume found under an [anat] directory (lines 89-102). *)
Definition reorganize_volume (input_bids_dir : Path) (primary_scan : option string)
  (bids_defaced_outdir anat_dir nii_filepath : Path) : M unit :=
  if Py.startswith (PathLib.name nii_filepath) "tmp.99.result" then
    match primary_scan with
    | None => raise TypeError    (* [Path(None)] *)
    | Some primary =>
        let gz_file := anat_dir // PathLib.name (PathLib.of_str primary) in
        compress_to_gz nii_filepath gz_file ;;;
        rel <- lift (Fs.relative_to anat_dir bids_defaced_outdir) ;;
        copy_over_sidecar (PathLib.of_str primary) (PathLib.join input_bids_dir rel) anat_dir
    end
  else if Py.endswith (PathLib.name nii_filepath) "_defaced.nii.gz" then
    let new_filename :=
      Py.join "_" (removelast (Py.split "_" (PathLib.name nii_filepath))) ++ ".nii.gz" in
    on_fs (Fs.copy2 nii_filepath (anat_dir // new_filename)) ;;;
    rel <- lift (Fs.relative_to anat_dir bids_defaced_outdir) ;;
    copy_over_sidecar nii_filepath (PathLib.join input_bids_dir rel) anat_dir
  else ret tt.

(** One entry of an [anat] directory (lines 107-112). *)
Definition archive_entry (intermediate_files_dir dirpath : Path) : M unit :=
  if Py.startswith (PathLib.name dirpath) "workdir" then
    on_fs (Fs.move dirpath (intermediate_files_dir // ("afni_" ++ PathLib.name dirpath)))
  else if Py.endswith (PathLib.name dirpath) "QC" then
    on_fs (Fs.move dirpath intermediate_files_dir)
  else ret tt.

(** The body of [for anat_dir in anat_dirs] (lines 86-117).  The entries
    each inner loop goes through are those present when the loop starts. *)
Definition reorganize_anat_dir (input_bids_dir : Path) (primary_scan : option string)
  (bids_defaced_outdir : Path) (no_clean : bool) (anat_dir : Path) : M unit :=
  (fun w => (mkWorld (fs w) (shell_log w) (messages w) (reorganized w ++ [anat_dir])%list
                     (stat_error w),
             Ok tt)) ;;;
  tree <- get_fs ;;
  for_each (Fs.rglob anat_dir (fun n => Py.contains n "nii") tree)
           (reorganize_volume input_bids_dir primary_scan bids_defaced_outdir anat_dir) ;;;
  let intermediate_files_dir := anat_dir // "work_dir" in
  on_fs (Fs.mkdir_p intermediate_files_dir) ;;;
  tree <- get_fs ;;
  for_each (Fs.glob anat_dir (fun _ => true) tree) (archive_entry intermediate_files_dir) ;;;
  vqcdeface_prep input_bids_dir anat_dir bids_defaced_outdir ;;;
  if negb no_clean then on_fs (Fs.rmtree intermediate_files_dir) else ret tt.

(** The directory under which [reorganize_into_bids] looks for [anat]
    directories (lines 80-83).  The two middle parameters are named
    [subj_id] and [sess_id] in the source; [sess_id] is [None] for the
    empty string. *)
Definition reorganize_root (bids_defaced_outdir subj_id : Path) (sess_id : option Path) : Path :=
  match sess_id with
  | Some sess => PathLib.join (PathLib.join bids_defaced_outdir subj_id) sess
  | None => PathLib.join bids_defaced_outdir subj_id
  end.

Definition reorganize_into_bids (input_bids_dir subj_id : Path) (sess_id : option Path)
  (primary_scan : option string) (bids_defaced_outdir : Path) (no_clean : bool) : M unit :=
  tree <- get_fs ;;
  let anat_dirs := Fs.rglob (reorganize_root bids_defaced_outdir subj_id sess_id)
                            (fun n => String.eqb n "anat") tree in
  for_each anat_dirs
           (reorganize_anat_dir input_bids_dir primary_scan bids_defaced_outdir no_clean).

(** The scans handed to [run_afni_refacer] for one unit (lines 199-200 and
    207-208). *)
Definition unit_scans (u : scans) : option string * list string :=
  (primary_t1 u,
   filter (fun s => negb (match primary_t1 u with
                          | Some p => String.eqb s p
                          | None => false
                          end)) (others u)).

(** [deface_primary_scan]; [sess_dir] is [None] for the empty string.  The
    list returned holds what [run_afni_refacer] returned. *)
Definition deface_primary_scan (input_bids_dir subj_input_dir : Path)
  (sess_dir : option Path) (mapping_dict : mapping) (output_dir : Path)
  (mode : string) (no_clean nih_hpc : bool) : M (list (option string)) :=
  let defacing_log := output_dir // "logs" // "defacing_pipeline.log" in
  tree <- get_fs ;;
  (if negb (Fs.exists_ (PathLib.parent defacing_log) tree)
   then on_fs (Fs.mkdir_p (PathLib.parent defacing_log)) else ret tt) ;;;
  (if nih_hpc then
     oe <- utils_run_command "module load afni ; module load fsl" ;;
     if Py.truthy (snd oe)
     then say ERROR ("Error loading AFNI and/or FSL modules." ++ Py.nl ++ snd oe)
     else say INFO ("AFNI and FSL modules loaded successfully." ++ Py.nl)
   else ret tt) ;;;
  let subj_id := PathLib.name subj_input_dir in
  let sess_id := match sess_dir with Some d => PathLib.name d | None => "" end in
  u <- (if negb (Py.truthy sess_id)
        then flat_scans mapping_dict subj_id
        else session_scans mapping_dict subj_id sess_id) ;;
  let '(primary_t1, others) := unit_scans u in
  say INFO ("Command logs at "
            ++ PathLib.to_str (output_dir // "logs"
                 // ((if negb (Py.truthy sess_id) then subj_id else subj_id ++ "_" ++ sess_id)
                     ++ "_defacing.log"))
            ++ Py.nl ++ ".") ;;;
  missing <- run_afni_refacer primary_t1 others subj_input_dir sess_id output_dir mode ;;
  say INFO ("Reorganizing "
            ++ (if negb (Py.truthy sess_id) then PathLib.to_str subj_input_dir
                else PathLib.fmt_opt sess_dir)
            ++ " with defaced images into BIDS tree"
            ++ (if negb (Py.truthy sess_id) then Py.nl else "..." ++ Py.nl)) ;;;
  reorganize_into_bids input_bids_dir subj_input_dir sess_dir primary_t1 output_dir no_clean ;;;
  ret [missing].

(** *** dsst_defacing_wf.py *)

(** The values [get_args] returns; the two directories are already
    resolved. *)
Record args : Type := mkArgs {
  arg_input : Path;
  arg_output : Path;
  arg_subj_id : option string;
  arg_sess_id : option string;
  arg_swarm : bool;
  arg_no_clean : bool
}.

(** The check at the end of [get_args]. *)
Definition get_args (a : args) : M args :=
  if negb (Py.truthy_opt (arg_subj_id a)) && Py.truthy_opt (arg_sess_id a)
  then say STDOUT "Session ID provided without a subject ID. Invalid Argument." ;;;
       raise ValueError
  else ret a.

(** The driver's own [run_command]: the output is printed, a return code
    other than zero raises. *)
Definition run_command (cmdstr : string) : M unit :=
  fun w => let '(fs', o) := shell cmdstr (fs w) in
           let w' := mkWorld fs' (shell_log w ++ [cmdstr])%list
                             (messages w ++ [(STDOUT, out o)])%list (reorganized w) (stat_error w) in
           if Nat.eqb (returncode o) 0 then (w', Ok tt) else (w', Raise NonZeroReturnCode).

Definition get_sess_dirs (subj_dir_path : Path) (mapping_dict : mapping)
  : M (list (option Path)) :=
  e <- getitem mapping_dict (PathLib.name subj_dir_path) ;;
  ret (map (fun key => if Py.startswith key "ses-" then Some (subj_dir_path // key) else None)
           (entry_keys e)).

(** [os.path.realpath(__file__)] *)
Variable script_path : string.

Definition start_swarm_job (input_dir output_dir : Path) (no_clean : bool) : M unit :=
  tree <- get_fs ;;
  let cmd_list :=
    map (fun subj_dir =>
           "python " ++ script_path ++ " -i " ++ PathLib.to_str input_dir
           ++ " -o " ++ PathLib.to_str output_dir ++ " -p " ++ PathLib.name subj_dir
           ++ (if no_clean then " --no-clean" else ""))
        (Fs.glob input_dir (fun n => Py.startswith n "sub-") tree) in
  on_fs (Fs.mkdir_p output_dir) ;;;
  let swarm_file := output_dir // "defacing_subject_level.swarm" in
  on_fs (Fs.write_file swarm_file (Py.join Py.nl cmd_list)) ;;;
  tree <- get_fs ;;
  if Fs.exists_ swarm_file tree then
    (if Fs.exists_ (output_dir // "swarm_logs") tree
     then on_fs (Fs.rmtree (output_dir // "swarm_logs")) else ret tt) ;;;
    run_command ("swarm -f " ++ PathLib.to_str swarm_file ++ " --merge-output --logdir "
                 ++ PathLib.to_str output_dir ++ "/swarm_logs")
  else raise OSError.

(** [generate_mappings.crawl] is not among the sources: it reads the input
    tree, may write under the output directory, and returns the mapping. *)
Variable crawl : Path -> Path -> FS -> FS * result mapping.

(** Values passed at the call of [deface.deface_primary_scan]. *)
Inductive pyval : Type :=
| VPath (p : Path)
| VSess (s : option Path)
| VMapping (m : mapping)
| VBool (b : bool)
| VStr (s : string).

(** The parameters of [deface_primary_scan] (deface.py, line 180); none has
    a default. *)
Definition deface_primary_scan_params : list string :=
  ["input_bids_dir"; "subj_input_dir"; "sess_dir"; "mapping_dict"; "output_dir";
   "mode"; "no_clean"; "nih_hpc"].

(** A call with positional arguments only: it raises [TypeError] unless
    every parameter receives an argument. *)
Definition call_deface_primary_scan (actuals : list pyval) : M (list (option string)) :=
  if negb (Nat.eqb (List.length actuals) (List.length deface_primary_scan_params))
  then raise TypeError
  else match actuals with
       | [VPath i; VPath s; VSess d; VMapping m; VPath o; VStr mode; VBool nc; VBool hpc] =>
           deface_primary_scan i s d m o mode nc hpc
       | _ => raise TypeError
       end.

(** The units to process (lines 113-124). *)
Fixpoint all_units (mapping_dict : mapping) (subj_dirs : list Path)
  : M (list (Path * option Path)) :=
  match subj_dirs with
  | [] => ret []
  | subj_dir :: subj_dirs' =>
      sess_dirs <- get_sess_dirs subj_dir mapping_dict ;;
      rest <- all_units mapping_dict subj_dirs' ;;
      ret (map (fun sess_dir => (subj_dir, sess_dir)) sess_dirs ++ rest)%list
  end.

Definition subj_sess_list (a : args) (mapping_dict : mapping)
  : M (list (Path * option Path)) :=
  let subj_id := Py.fmt_opt (arg_subj_id a) in
  let sess_id := Py.fmt_opt (arg_sess_id a) in
  if Py.truthy_opt (arg_subj_id a) && negb (Py.truthy_opt (arg_sess_id a)) then
    let subj_dir := arg_input a // subj_id in
    sess_dirs <- get_sess_dirs subj_dir mapping_dict ;;
    ret (map (fun sess_dir => (subj_dir, sess_dir)) sess_dirs)
  else if Py.truthy_opt (arg_subj_id a) && Py.truthy_opt (arg_sess_id a) then
    let subj_dir := arg_input a // subj_id in
    ret [(subj_dir, Some (subj_dir // sess_id))]
  else
    tree <- get_fs ;;
    all_units mapping_dict (Fs.glob (arg_input a) (fun n => Py.startswith n "sub-") tree).

(** ['\n'.join(l)] where an item may be [None]. *)
Fixpoint all_str (l : list (option string)) : M (list string) :=
  match l with
  | [] => ret []
  | Some s :: l' => r <- all_str l' ;; ret (s :: r)
  | None :: _ => raise TypeError
  end.

(** The loop of lines 127-131, with the call as the source writes it: six
    positional arguments. *)
Fixpoint process_units (a : args) (mapping_dict : mapping) (bids_defaced_outdir : Path)
  (units : list (Path * option Path)) (afni_refacer_failures : list (option string))
  : M (list (option string)) :=
  match units with
  | [] => ret afni_refacer_failures
  | subj_sess :: units' =>
      missing_refacer_out <-
        call_deface_primary_scan
          [VPath (arg_input a); VPath (fst subj_sess); VSess (snd subj_sess);
           VMapping mapping_dict; VPath bids_defaced_outdir; VBool (arg_no_clean a)] ;;
      process_units a mapping_dict bids_defaced_outdir units'
                    (afni_refacer_failures ++ missing_refacer_out)%list
  end.

Definition report_path (output : Path) : Path :=
  output // "logs" // "failed_afni_refacer_output.txt".

Definition main (cmdline : args) : M unit :=
  a <- get_args cmdline ;;
  if arg_swarm a then start_swarm_job (arg_input a) (arg_output a) (arg_no_clean a)
  else
    mapping_dict <- (fun w => let '(fs', r) := crawl (arg_input a) (arg_output a) (fs w) in
                              (mkWorld fs' (shell_log w) (messages w) (reorganized w) (stat_error w), r)) ;;
    let bids_defaced_outdir := arg_output a // "bids_defaced" in
    on_fs (Fs.mkdir_p bids_defaced_outdir) ;;;
    units <- subj_sess_list a mapping_dict ;;
    afni_refacer_failures <- process_units a mapping_dict bids_defaced_outdir units [] ;;
    on_fs (Fs.write_file (report_path (arg_output a)) "") ;;;   (* [open(..., 'w')] *)
    lines <- all_str afni_refacer_failures ;;
    on_fs (Fs.write_file (report_path (arg_output a)) (Py.join Py.nl lines)).

End Pipeline.

(** ** Stand-ins for the external tools, to run the pipeline on examples *)

Module Sim.

Definition quiet : outcome := mkOutcome "" "" 0.

Definition failed : outcome := mkOutcome "" "command not found" 127.

(** The word that follows [flag] on a command line. *)
Fixpoint arg_after (flag : string) (words : list string) : option string :=
  match words with
  | w :: ((v :: _) as rest) => if String.eqb w flag then Some v else arg_after flag rest
  | _ => None
  end.

Definition remove (victims : list string) (tree : FS) : FS :=
  filter (fun e => negb (existsb (fun v => PathLib.eqb (fst e) (PathLib.of_str v)
                                           || Fs.is_under (PathLib.of_str v) (fst e))
                                 victims)) tree.

(** [@afni_refacer_run ... -prefix P]: leaves a working directory
    [__work_refacer.<name of P>] beside [P], holding the raw face-mask
    volumes and the refaced volume. *)
Definition afni (words : list string) (tree : FS) : FS :=
  match arg_after "-prefix" words with
  | Some p =>
      let target := PathLib.of_str p in
      let workdir := PathLib.parent target // ("__work_refacer." ++ PathLib.name target) in
      (tree ++ [(workdir, Dir);
                (workdir // "tmp.05.sh_t2a_thr.nii", File "raw mask");
                (workdir // "tmp.99.result.deface.nii", File "defaced");
                (PathLib.parent target // (PathLib.name target ++ ".face_plus.QC"), Dir)])%list
  | None => tree
  end.

(** [fslroi ... ; fslmaths ... <mask>]: writes the mask named last. *)
Definition fsl_mask (words : list string) (tree : FS) : FS :=
  (tree ++ [(PathLib.of_str (last words ""), File "mask")])%list.

(** [cp ... ; flirt ... ; flirt ... ; fslmaths ... <defaced>]: writes the
    defaced volume named last, before the end of the line. *)
Definition fsl_register (words : list string) (tree : FS) : FS :=
  (tree ++ [(PathLib.of_str (hd "" (Py.split (ascii_of_nat 10) (last words ""))),
             File "defaced")])%list.

(** Every tool works. *)
Definition tools_ok (cmd : string) (tree : FS) : FS * outcome :=
  let words := Py.split " " cmd in
  if Py.startswith cmd "@afni_refacer_run" then (afni words tree, quiet)
  else if Py.startswith cmd "fslroi" then (fsl_mask words tree, quiet)
  else if Py.startswith cmd "cp " then (fsl_register words tree, quiet)
  else if Py.startswith cmd "rm -rf" then (remove (skipn 2 words) tree, quiet)
  else (tree, quiet).

(** AFNI works, the FSL commands that derive the mask leave no file. *)
Definition tools_no_mask (cmd : string) (tree : FS) : FS * outcome :=
  if Py.startswith cmd "fslroi" then (tree, failed) else tools_ok cmd tree.

(** A stand-in for [gzip]. *)
Definition gz (bytes : string) : string := "gz:" ++ bytes.

Definition world_of (tree : FS) : World := mkWorld tree [] [] [] (fun _ _ => None).

(** A file system that refuses names of more than 255 characters
    ([ENAMETOOLONG]). *)
Definition name_too_long (p : Path) (_ : FS) : option string :=
  if existsb (fun c => Nat.ltb 255 (String.length c)) (parts p)
  then Some ("[Errno 36] File name too long: '" ++ PathLib.to_str p ++ "'")
  else None.

Definition world_with_limits (tree : FS) : World := mkWorld tree [] [] [] name_too_long.

Definition long_name : string := String.concat "" (repeat "x" 256).

(** A subject without sessions: a T1w with an acquisition label, and a T2w. *)
Definition t1w_01 : string := "/data/bids/sub-01/anat/sub-01_acq-mprage_T1w.nii.gz".
Definition t2w_01 : string := "/data/bids/sub-01/anat/sub-01_T2w.nii.gz".

(** A session without a T1w: two other scans. *)
Definition t2w_02 : string := "/data/bids/sub-02/ses-1/anat/sub-02_ses-1_T2w.nii.gz".
Definition pdw_02 : string := "/data/bids/sub-02/ses-1/anat/sub-02_ses-1_PDw.nii.gz".

Definition input_tree : FS :=
  (map (fun s => (PathLib.of_str s, Dir))
       ["/data"; "/data/bids"; "/data/bids/sub-01"; "/data/bids/sub-01/anat";
        "/data/bids/sub-02"; "/data/bids/sub-02/ses-1"; "/data/bids/sub-02/ses-1/anat";
        "/out"; "/out/logs"]
   ++ map (fun s => (PathLib.of_str s, File "volume")) [t1w_01; t2w_01; t2w_02; pdw_02]
   ++ map (fun s => (PathLib.of_str s, File "{}"))
          ["/data/bids/sub-01/anat/sub-01_acq-mprage_T1w.json";
           "/data/bids/sub-01/anat/sub-01_T2w.json";
           "/data/bids/sub-02/ses-1/anat/sub-02_ses-1_T2w.json";
           "/data/bids/sub-02/ses-1/anat/sub-02_ses-1_PDw.json"])%list.

Definition mapping_dict : mapping :=
  [("sub-01", Flat (mkScans (Some t1w_01) [t1w_01; t2w_01]));
   ("sub-02", Sessions [("ses-1", mkScans None [t2w_02; pdw_02])])].

Definition input_dir : Path := PathLib.of_str "/data/bids".
Definition output : Path := PathLib.of_str "/out".
Definition bids_defaced_outdir : Path := output // "bids_defaced".

Definition crawl (_ _ : Path) (tree : FS) : FS * result mapping := (tree, Ok mapping_dict).

End Sim.

(** ** The 3-D renders (deface.py, lines 44-58)

    [generate_3d_renders] is called nowhere in the sources; it is embedded
    for the properties at the end of the file. *)

Module Render.

(** [str(n)] and [f"{n}"] for an integer, [str(b)] for a boolean. *)
Definition py_int (z : Z) : string := NilZero.string_of_int (Z.to_int z).

Definition py_bool (b : bool) : string := if b then "True" else "False".

Definition rotations : list (Z * Z * Z) := [(45, 5, 10); (-45, 5, 10)]%Z.

(** [enumerate(l)] *)
Definition enumerate {A} (l : list A) : list (nat * A) := combine (seq 0 (List.length l)) l.

Definition outfile_of (render_outdir : Path) (idx : nat) : Path :=
  render_outdir // ("defaced_render_0" ++ py_int (Z.of_nat idx) ++ ".png").

Definition fsleyes_render_cmd (rot : Z * Z * Z) (outfile defaced_img : Path) : string :=
  let '(yaw, pitch, roll) := rot in
  "module load fsl; fsleyes render --scene 3d -rot " ++ py_int yaw ++ " " ++ py_int pitch
  ++ " " ++ py_int roll ++ " --outfile " ++ PathLib.to_str outfile ++ " "
  ++ PathLib.to_str defaced_img
  ++ " --displayRange 20 250 --interpolation spline --cmap render1 --blendFactor 0.3 -r 100 --numSteps 500".

(** The body of [for idx, rot in enumerate(rotations)]. *)
Definition render_one (shell : string -> FS -> FS * outcome) (defaced_img render_outdir : Path)
  (item : nat * (Z * Z * Z)) : M unit :=
  let outfile := outfile_of render_outdir (fst item) in
  found <- path_exists outfile ;;
  if negb found then
    let cmd := fsleyes_render_cmd (snd item) outfile defaced_img in
    say STDOUT cmd ;;;
    oe <- utils_run_command shell cmd ;;
    (if Py.truthy (snd oe)
     then say STDOUT ("Error in rendering " ++ PathLib.name defaced_img ++ " with fsleyes."
                      ++ Py.nl ++ snd oe)
     else ret tt) ;;;
    created <- path_exists outfile ;;
    say STDOUT ("Has the render been created? " ++ py_bool created)
  else ret tt.

Definition generate_3d_renders (shell : string -> FS -> FS * outcome)
  (defaced_img render_outdir : Path) : M unit :=
  for_each (enumerate rotations) (render_one shell defaced_img render_outdir).

End Render.

(** * Properties *)

(** ** Strings, paths and the tree *)

Example split_name :
  Py.split "_" "sub-01_ses-1_T2w.nii.gz" = ["sub-01"; "ses-1"; "T2w.nii.gz"].
Proof. reflexivity. Qed.

Example split_trailing : Py.split "." "a." = ["a"; ""].
Proof. reflexivity. Qed.

Example endswith_qc : Py.endswith "sub-01_T1w.face_plus.QC" "QC" = true.
Proof. reflexivity. Qed.

Example contains_work : Py.contains "__work_refacer_x.sub-01" "work_refacer" = true.
Proof. reflexivity. Qed.

Example join_skips_empty :
  PathLib.to_str (PathLib.of_str "/out" // "sub-01" // "" // "anat" // "") = "/out/sub-01/anat".
Proof. reflexivity. Qed.

Example join_absolute_wins :
  PathLib.join (PathLib.of_str "/out/bids_defaced") (PathLib.of_str "/data/sub-01")
  = PathLib.of_str "/data/sub-01".
Proof. reflexivity. Qed.

Lemma str_append_assoc (a b c : string) : (a ++ b) ++ c = a ++ b ++ c.
Proof. induction a as [| x a IH]; simpl; congruence. Qed.

Lemma str_append_empty (a : string) : a ++ "" = a.
Proof. induction a as [| x a IH]; simpl; congruence. Qed.

Lemma path_eqb_refl (p : Path) : PathLib.eqb p p = true.
Proof.
  unfold PathLib.eqb. rewrite Bool.eqb_reflx.
  destruct (list_eq_dec string_dec (parts p) (parts p)); [reflexivity | congruence].
Qed.

Lemma path_eqb_eq (p q : Path) : PathLib.eqb p q = true <-> p = q.
Proof.
  split.
  - unfold PathLib.eqb. destruct p as [a l], q as [b k]; simpl.
    destruct (list_eq_dec string_dec l k) as [-> | ]; rewrite ?andb_false_r; try discriminate.
    rewrite andb_true_r. intros H. apply Bool.eqb_prop in H. now subst.
  - intros ->. apply path_eqb_refl.
Qed.

Lemma lookup_put (p : Path) (c : string) (tree : FS) :
  Fs.lookup p (Fs.put p c tree) = Some (File c).
Proof.
  unfold Fs.lookup.
  induction tree as [| e tree IH]; simpl.
  - now rewrite path_eqb_refl.
  - destruct (PathLib.eqb (fst e) p) eqn:E; simpl.
    + now rewrite path_eqb_refl.
    + now rewrite E.
Qed.

Lemma write_file_exists (p : Path) (c : string) (tree tree' : FS) :
  Fs.write_file p c tree = Ok tree' -> Fs.exists_ p tree' = true.
Proof.
  unfold Fs.write_file, Fs.exists_.
  destruct (parts p); [discriminate |].
  destruct (negb (Fs.parent_ready p tree)); [discriminate |].
  destruct (Fs.lookup p tree) as [[| c' | t] |]; try discriminate;
    intros [= <-]; now rewrite lookup_put.
Qed.

(** ** Directories made by [mkdir(parents=True, exist_ok=True)] *)

Lemma find_app {A} (f : A -> bool) (l1 l2 : list A) :
  find f (l1 ++ l2) = match find f l1 with
                      | Some x => Some x
                      | None => find f l2
                      end.
Proof.
  induction l1 as [| a l1 IH]; simpl; [reflexivity |].
  now destruct (f a).
Qed.

Lemma find_fresh_dir (q : Path) (l : list Path) :
  In q l ->
  exists e, find (fun e => PathLib.eqb (fst e) q) (map (fun q => (q, Dir)) l) = Some e
            /\ snd e = Dir.
Proof.
  induction l as [| a l IH]; simpl; [tauto |].
  intros [-> | H].
  - rewrite path_eqb_refl. now eexists.
  - destruct (PathLib.eqb a q); [now eexists | auto].
Qed.

Lemma mkdir_p_dirs (p : Path) (tree tree' : FS) :
  Fs.mkdir_p p tree = Ok tree' ->
  Forall (fun q => Fs.lookup q tree' = Some Dir) (Fs.lineage p).
Proof.
  unfold Fs.mkdir_p.
  destruct (existsb _ (Fs.lineage p)) eqn:E; [discriminate |].
  intros [= <-]. apply Forall_forall. intros q Hq.
  assert (F : Fs.in_the_way q tree = false).
  { destruct (Fs.in_the_way q tree) eqn:F; [| reflexivity].
    assert (X : existsb (fun q => Fs.in_the_way q tree) (Fs.lineage p) = true)
      by (apply existsb_exists; eauto).
    congruence. }
  unfold Fs.lookup, Fs.in_the_way, Fs.lookup in *. rewrite find_app.
  destruct (find (fun e => PathLib.eqb (fst e) q) tree) as [[k n] |] eqn:L; simpl in *.
  - destruct n; [reflexivity | discriminate | discriminate].
  - destruct (find_fresh_dir q (filter (fun q => negb (Fs.exists_ q tree)) (Fs.lineage p)))
      as [e [-> ->]]; [| reflexivity].
    apply filter_In. split; [exact Hq |].
    unfold Fs.exists_, Fs.lookup. now rewrite L.
Qed.

Lemma chain_last (a : bool) (todo done : list string) :
  todo <> [] -> In (mkPath a (done ++ todo)) (Fs.chain a done todo).
Proof.
  revert done. induction todo as [| x todo IH]; intros done H; [congruence |].
  simpl. destruct todo as [| y todo].
  - now left.
  - right. replace (done ++ x :: y :: todo)%list with ((done ++ [x]) ++ y :: todo)%list
      by (now rewrite <- app_assoc).
    apply IH. discriminate.
Qed.

(** The directory itself is in its lineage, unless it is the anchor. *)
Lemma lineage_self (p : Path) : parts p <> [] -> In p (Fs.lineage p).
Proof.
  intros H. unfold Fs.lineage. destruct p as [a l]; simpl in *.
  exact (chain_last a l [] H).
Qed.

(** ** Tokens of a file name *)

Lemma split_nonempty (c : ascii) (s : string) : Py.split c s <> [].
Proof.
  destruct s as [| a r]; simpl; [discriminate |].
  destruct (Ascii.eqb a c); [discriminate |].
  destruct (Py.split c r); discriminate.
Qed.

Lemma split_token (c : ascii) (a b : string) :
  Py.lacks c a = true -> Py.split c (a ++ String c b) = a :: Py.split c b.
Proof.
  induction a as [| x a IH]; simpl.
  - intros _. now rewrite Ascii.eqb_refl.
  - intros H. apply andb_prop in H. destruct H as [Hx Ha].
    apply negb_true_iff in Hx. rewrite Hx, (IH Ha). reflexivity.
Qed.

(** In a name [<sub>_<ses>_<rest>] the token at index 1 is [<ses>]. *)
Lemma second_token_is_session (sub ses rest : string) :
  Py.lacks "_" sub = true -> Py.lacks "_" ses = true ->
  nth_error (Py.split "_" (sub ++ "_" ++ ses ++ "_" ++ rest)) 1 = Some ses.
Proof.
  intros Hsub Hses. simpl.
  rewrite (split_token "_" sub _ Hsub), (split_token "_" ses _ Hses). reflexivity.
Qed.

(** ** Mask derivation (register.py, lines 10-28 and 39-47) *)

(** [preprocess_facemask] runs the two FSL commands as one command line;
    what it yields then hangs on the mask file and on [stat]. *)
Lemma preprocess_facemask_cases
  (shell : string -> FS -> FS * outcome) (fmask_path : Path) (w : World) :
  let defacemask := PathLib.parent fmask_path // "afni_defacemask.nii.gz" in
  let tree := fst (shell (facemask_cmd fmask_path) (fs w)) in
  exists w',
    preprocess_facemask shell fmask_path w
    = (w', if Fs.exists_ defacemask tree then Ok (Some defacemask)
           else match stat_error w defacemask tree with
                | Some _ => Raise OSError
                | None => Ok None
                end)
    /\ fs w' = tree
    /\ shell_log w' = (shell_log w ++ [facemask_cmd fmask_path])%list.
Proof.
  unfold preprocess_facemask, bind at 1 2, say at 1, register_run_command.
  cbn [fs shell_log messages reorganized stat_error].
  destruct (shell (facemask_cmd fmask_path) (fs w)) as [tree o]. cbn [fs fst].
  unfold try_except_OSError, bind at 1, path_exists.
  cbn [fs shell_log messages reorganized stat_error].
  destruct (Fs.exists_ _ tree); [eexists; repeat split |].
  destruct (stat_error w _ tree); [| eexists; repeat split].
  unfold bind, stat_error_text, say, raise.
  cbn [fs shell_log messages reorganized stat_error].
  eexists; repeat split.
Qed.

(** C2 fails on the code.  The FSL commands leave no mask file: the engine
    goes on without an error and runs the registration command of the
    secondary scan, with [None] where the mask belongs. *)
Theorem register_without_mask :
  let workdir := Sim.bids_defaced_outdir // "sub-01" // "anat" // "workdir_sub-01_acq-mprage_T1w" in
  let w := Sim.world_of (Sim.input_tree
                         ++ [(workdir, Dir);
                             (workdir // "tmp.05.sh_t2a_thr.nii", File "raw mask")])%list in
  let r := register_to_primary_scan Sim.tools_no_mask (PathLib.of_str "/data/bids/sub-01")
             workdir (PathLib.of_str Sim.t1w_01) [Sim.t2w_01] w in
  snd r = Ok tt
  /\ Fs.exists_ (workdir // "afni_defacemask.nii.gz") (fs (fst r)) = false
  /\ List.length (shell_log (fst r)) = 2
  /\ Py.startswith (nth 0 (shell_log (fst r)) "") "fslroi " = true
  /\ Py.startswith (nth 1 (shell_log (fst r)) "")
       "cp /data/bids/sub-01/anat/sub-01_T2w.nii.gz " = true
  /\ Py.contains (nth 1 (shell_log (fst r)) "") " -in None -ref " = true.
Proof. vm_compute. repeat split. Qed.

(** ** Registration of one secondary scan (register.py, lines 47-71) *)

(** For a secondary scan whose name has a second underscore-delimited token
    [tok], the registration engine resolves the scan to
    [subj_dir.joinpath(tok, 'anat', <scan>)], makes the directory
    [<workdir>/<prefix>] of the scan, and then runs one command line, the
    four operations joined by [" ; "]: the copy of the raw scan, the
    6-degrees-of-freedom registration of the primary onto the scan, the
    nearest-neighbour application of the transform to the face-mask, and the
    masking of the original scan. *)
Theorem register_one_issues_one_command
  (shell : string -> FS -> FS * outcome)
  (subj_dir afni_workdir primary_scan mask : Path) (other tok : string)
  (w : World) (tree : FS) :
  let scan := subj_dir // tok // "anat" // other in
  let prefix := hd "" (Py.split "." (PathLib.name scan)) in
  let outdir := afni_workdir // prefix in
  let stem := PathLib.to_str (outdir // prefix) in
  let copy := "cp " ++ PathLib.to_str scan ++ " " ++ stem in
  let rigid := "flirt -dof 6 -cost mutualinfo -searchcost mutualinfo -in "
               ++ PathLib.to_str primary_scan ++ " -ref " ++ PathLib.to_str scan
               ++ " -omat " ++ (stem ++ "_reg.mat")
               ++ " -out " ++ (stem ++ "_registered.nii.gz") in
  let transfer := "flirt -interp nearestneighbour -applyxfm -init " ++ (stem ++ "_reg.mat")
                  ++ " -in " ++ PathLib.to_str mask ++ " -ref " ++ PathLib.to_str scan
                  ++ " -out " ++ (stem ++ "_mask.nii.gz") in
  let masking := "fslmaths " ++ PathLib.to_str scan ++ " -mas " ++ (stem ++ "_mask.nii.gz")
                 ++ " " ++ (stem ++ "_defaced.nii.gz") in
  let cmd := Py.join " ; " [copy; rigid; transfer; masking] ++ Py.nl in
  nth_error (Py.split "_" other) 1 = Some tok ->
  Fs.mkdir_p outdir (fs w) = Ok tree ->
  exists w',
    register_one shell subj_dir afni_workdir primary_scan (Some mask) other w = (w', Ok tt)
    /\ shell_log w' = (shell_log w ++ [cmd])%list
    /\ fs w' = fst (shell cmd tree)
    /\ Forall (fun q => Fs.lookup q tree = Some Dir) (Fs.lineage outdir).
Proof.
  intros scan prefix outdir stem copy rigid transfer masking cmd Htok Hmk.
  unfold register_one, bind, index. rewrite Htok. unfold ret at 1.
  fold scan. fold prefix. fold outdir.
  unfold on_fs. rewrite Hmk.
  unfold say, register_run_command.
  cbn [fs shell_log messages reorganized stat_error].
  change (Py.join " ; " (scan_cmds afni_workdir primary_scan (Some mask) scan) ++ Py.nl)
    with cmd.
  destruct (shell cmd tree) as [tree2 o] eqn:S.
  eexists. split; [reflexivity |].
  cbn [fs shell_log fst]. repeat split.
  eapply mkdir_p_dirs, Hmk.
Qed.

Lemma register_one_issues_one_command_witness :
  let subj_dir := PathLib.of_str "/data/bids/sub-02" in
  let workdir := PathLib.of_str "/out/bids_defaced/sub-02/ses-1/anat/workdir_sub-02_ses-1_T1w" in
  let primary := PathLib.of_str "/data/bids/sub-02/ses-1/anat/sub-02_ses-1_T1w.nii.gz" in
  let mask := workdir // "afni_defacemask.nii.gz" in
  nth_error (Py.split "_" "sub-02_ses-1_T2w.nii.gz") 1 = Some "ses-1" /\
  exists w',
    register_one Sim.tools_ok subj_dir workdir primary (Some mask) "sub-02_ses-1_T2w.nii.gz"
                 (Sim.world_of Sim.input_tree) = (w', Ok tt)
    /\ Fs.lookup (workdir // "sub-02_ses-1_T2w") (fs w') = Some Dir
    /\ List.length (shell_log w') = 1
    /\ Py.startswith (hd "" (shell_log w'))
         "cp /data/bids/sub-02/ses-1/anat/sub-02_ses-1_T2w.nii.gz " = true.
Proof.
  intros subj_dir workdir primary mask. split; [reflexivity |].
  edestruct (register_one_issues_one_command Sim.tools_ok subj_dir workdir primary mask
               "sub-02_ses-1_T2w.nii.gz" "ses-1" (Sim.world_of Sim.input_tree))
    as [w' [H1 [H2 [H3 _]]]].
  - reflexivity.
  - vm_compute. reflexivity.
  - exists w'. split; [exact H1 |]. rewrite H3, H2. vm_compute. repeat split.
Defined.

(** C7 fails on the code.  [sub-01_T2w.nii.gz], the secondary scan of a
    subject without sessions, has no session entity in its name.  The engine
    takes the second token of the name by position, here the suffix with the
    extension, and the command line it runs names
    [/data/bids/sub-01/T2w.nii.gz/anat/sub-01_T2w.nii.gz], which is not in the
    dataset; the scan itself, at [/data/bids/sub-01/anat/sub-01_T2w.nii.gz],
    is named nowhere in it.  For a name with a session entity the same code
    names the scan's path. *)
Theorem register_scan_without_session :
  let workdir := Sim.bids_defaced_outdir // "sub-01" // "anat" // "workdir_sub-01_acq-mprage_T1w" in
  let w := Sim.world_of (Sim.input_tree
                         ++ [(workdir, Dir);
                             (workdir // "tmp.05.sh_t2a_thr.nii", File "raw mask")])%list in
  let r := register_to_primary_scan Sim.tools_ok (PathLib.of_str "/data/bids/sub-01")
             workdir (PathLib.of_str Sim.t1w_01) ["sub-01_T2w.nii.gz"] w in
  let cmd := nth 1 (shell_log (fst r)) "" in
  let r2 := register_to_primary_scan Sim.tools_ok (PathLib.of_str "/data/bids/sub-02")
              workdir (PathLib.of_str Sim.t1w_01) ["sub-02_ses-1_T2w.nii.gz"] w in
  (Fs.lookup (PathLib.of_str "/data/bids/sub-01/anat/sub-01_T2w.nii.gz") (fs w)
   = Some (File "volume")
   /\ forallb (fun token => negb (Py.startswith token "ses-"))
              (Py.split "_" "sub-01_T2w.nii.gz") = true
   /\ snd r = Ok tt
   /\ List.length (shell_log (fst r)) = 2
   /\ Py.startswith cmd "cp /data/bids/sub-01/T2w.nii.gz/anat/sub-01_T2w.nii.gz " = true
   /\ Py.contains cmd " -ref /data/bids/sub-01/T2w.nii.gz/anat/sub-01_T2w.nii.gz " = true
   /\ Py.contains cmd "fslmaths /data/bids/sub-01/T2w.nii.gz/anat/sub-01_T2w.nii.gz " = true
   /\ Py.contains cmd "/data/bids/sub-01/anat/sub-01_T2w.nii.gz" = false
   /\ Fs.exists_ (PathLib.of_str "/data/bids/sub-01/T2w.nii.gz/anat/sub-01_T2w.nii.gz")
                 (fs w) = false)
  /\ (snd r2 = Ok tt
      /\ Py.startswith (nth 1 (shell_log (fst r2)) "")
           "cp /data/bids/sub-02/ses-1/anat/sub-02_ses-1_T2w.nii.gz " = true
      /\ Fs.lookup (PathLib.of_str "/data/bids/sub-02/ses-1/anat/sub-02_ses-1_T2w.nii.gz")
                   (fs w) = Some (File "volume")).
Proof. vm_compute. repeat split. Qed.

(** A scan given by an absolute path is kept as it is, whatever its tokens
    are: [joinpath] drops what precedes an absolute operand. *)
Lemma resolve_absolute_scan (subj_dir : Path) (tok other : string) :
  Py.startswith other "/" = true ->
  subj_dir // tok // "anat" // other = PathLib.of_str other.
Proof.
  intros H. unfold PathLib.join_str at 1, PathLib.join.
  unfold PathLib.of_str at 1. cbn [anchored]. now rewrite H.
Qed.

(** ** The whole registration run (register.py, lines 39-71) *)

Lemma register_one_log
  (shell : string -> FS -> FS * outcome) (subj_dir afni_workdir primary_scan : Path)
  (t1_mask : option Path) (other : string) (w w' : World) :
  register_one shell subj_dir afni_workdir primary_scan t1_mask other w = (w', Ok tt) ->
  shell_log w'
  = (shell_log w
     ++ [(Py.join " ; " (scan_cmds afni_workdir primary_scan t1_mask
                           (subj_dir // nth 1 (Py.split "_" other) "" // "anat" // other))
          ++ Py.nl)%string])%list.
Proof.
  unfold register_one, bind, index.
  destruct (nth_error (Py.split "_" other) 1) as [tok |] eqn:T; [| discriminate].
  rewrite (nth_error_nth _ _ "" T). unfold ret at 1.
  unfold on_fs. destruct (Fs.mkdir_p _ (fs w)) as [tree | e]; [| discriminate].
  unfold say, register_run_command. cbn [fs shell_log messages reorganized stat_error].
  destruct (shell _ tree) as [tree2 o]. intros [= <-]. reflexivity.
Qed.

(** X6. A run of the engine that returns has run the mask derivation and
    then one command line per secondary scan, in the order of the list; the
    mask these command lines name is [None] when the mask file is not
    there. *)
Lemma register_to_primary_scan_log
  (shell : string -> FS -> FS * outcome) (subj_dir afni_workdir primary_scan : Path)
  (other_scans_list : list string) (w w' : World) :
  let raw := afni_workdir // "tmp.05.sh_t2a_thr.nii" in
  let defacemask := PathLib.parent raw // "afni_defacemask.nii.gz" in
  let t1_mask := if Fs.exists_ defacemask (fst (shell (facemask_cmd raw) (fs w)))
                 then Some defacemask else None in
  register_to_primary_scan shell subj_dir afni_workdir primary_scan other_scans_list w
  = (w', Ok tt) ->
  shell_log w'
  = (shell_log w
     ++ facemask_cmd raw
     :: map (fun other =>
               (Py.join " ; " (scan_cmds afni_workdir primary_scan t1_mask
                                 (subj_dir // nth 1 (Py.split "_" other) "" // "anat" // other))
                ++ Py.nl)%string)
            other_scans_list)%list.
Proof.
  intros raw defacemask t1_mask.
  unfold register_to_primary_scan, bind at 1. fold raw.
  destruct (preprocess_facemask_cases shell raw w) as [w1 [P [_ L]]].
  rewrite P. fold defacemask. clear P. intros H0.
  assert (H : for_each other_scans_list
                (register_one shell subj_dir afni_workdir primary_scan t1_mask) w1
              = (w', Ok tt)).
  { unfold t1_mask. destruct (Fs.exists_ defacemask _); [exact H0 |].
    destruct (stat_error w defacemask _); [discriminate | exact H0]. }
  clear H0.
  enough (E : forall l w1,
              for_each l (register_one shell subj_dir afni_workdir primary_scan t1_mask) w1
              = (w', Ok tt) ->
              shell_log w'
              = (shell_log w1
                 ++ map (fun other =>
                           (Py.join " ; "
                              (scan_cmds afni_workdir primary_scan t1_mask
                                 (subj_dir // nth 1 (Py.split "_" other) "" // "anat" // other))
                            ++ Py.nl)%string) l)%list).
  { rewrite (E _ _ H), L, <- app_assoc. reflexivity. }
  clear. induction l as [| other l IH]; intros w1 H.
  - simpl in H. injection H as <-. now rewrite app_nil_r.
  - simpl in H. unfold bind in H.
    destruct (register_one shell subj_dir afni_workdir primary_scan t1_mask other w1)
      as [w2 [[] | e]] eqn:R; [| discriminate].
    apply register_one_log in R. rewrite (IH _ H), R. simpl.
    now rewrite <- app_assoc.
Qed.

(** ** Cleanup around the working directory (deface.py, lines 12-27) *)

Lemma filter_all {A} (l : list A) : filter (fun _ => true) l = l.
Proof. induction l as [| a l IH]; simpl; congruence. Qed.

(** C8, as amended.  For a working directory whose name starts with
    [__work] and has a second dot-delimited segment [p],
    [rename_afni_workdir] first runs one [rm -rf] command, on every entry of
    the parent directory that is neither the working directory itself, nor
    another entry whose name starts with [__work], nor one whose name ends
    with [QC] or [defacing_pipeline.log].  It then renames the working
    directory to [workdir_<p>] in the same parent and returns that path; when
    the rename fails it raises, and the tree is as the command left it. *)
Theorem rename_afni_workdir_canonical
  (shell : string -> FS -> FS * outcome) (workdir_path : Path) (p : string) (w : World) :
  let doomed :=
    filter (fun f => negb (PathLib.eqb f workdir_path)
                     && negb (Py.startswith (PathLib.name f) "__work")
                     && negb (Py.endswith (PathLib.name f) "QC")
                     && negb (Py.endswith (PathLib.name f) "defacing_pipeline.log"))
           (Fs.children (PathLib.parent workdir_path) (fs w)) in
  let cmd := "rm -rf " ++ Py.join " " (map PathLib.to_str doomed) in
  let canonical := PathLib.parent workdir_path // ("workdir_" ++ p) in
  let cleaned := fst (shell cmd (fs w)) in
  Py.startswith (PathLib.name workdir_path) "__work" = true ->
  nth_error (Py.split "." (PathLib.name workdir_path)) 1 = Some p ->
  exists w',
    rename_afni_workdir shell workdir_path w
    = (w', match Fs.rename workdir_path canonical cleaned with
           | Ok _ => Ok canonical
           | Raise e => Raise e
           end)
    /\ shell_log w' = (shell_log w ++ [cmd])%list
    /\ fs w' = match Fs.rename workdir_path canonical cleaned with
               | Ok renamed => renamed
               | Raise _ => cleaned
               end.
Proof.
  intros doomed cmd canonical cleaned Hw Hp.
  assert (Hcmd : "rm -rf " ++ Py.join " " (to_be_deleted_files workdir_path (fs w)) = cmd).
  { unfold cmd, doomed, to_be_deleted_files, Fs.glob, kept_name.
    rewrite filter_all. do 3 f_equal.
    apply filter_ext. intros f. rewrite !negb_orb.
    destruct (PathLib.eqb f workdir_path) eqn:E; [| reflexivity].
    apply path_eqb_eq in E. subst f. now rewrite Hw. }
  unfold rename_afni_workdir, bind, index, say, get_fs, utils_run_command.
  rewrite Hp. unfold ret at 1. cbn [fs shell_log messages reorganized stat_error].
  rewrite Hcmd. fold canonical. unfold cleaned.
  destruct (shell cmd (fs w)) as [tree1 o] eqn:S. cbn [fst snd].
  destruct (Py.truthy (err o)); unfold say, ret, on_fs;
    cbn [fs shell_log messages reorganized stat_error];
    destruct (Fs.rename workdir_path canonical tree1); eexists; repeat split.
Qed.

Lemma rename_afni_workdir_canonical_witness :
  let anat := PathLib.of_str "/out/bids_defaced/sub-01/anat" in
  let workdir := anat // "__work_refacer.sub-01_T1w" in
  let w := Sim.world_of [(anat, Dir); (workdir, Dir);
                         (workdir // "tmp.05.sh_t2a_thr.nii", File "raw mask");
                         (anat // "__work_refacer.sub-01_PDw", Dir);
                         (anat // "sub-01_T1w.face_plus.QC", Dir);
                         (anat // "sub-01_T1w.face_plus.nii.gz", File "volume")] in
  (Py.startswith (PathLib.name workdir) "__work" = true
   /\ nth_error (Py.split "." (PathLib.name workdir)) 1 = Some "sub-01_T1w") /\
  exists w',
    rename_afni_workdir Sim.tools_ok workdir w = (w', Ok (anat // "workdir_sub-01_T1w"))
    /\ shell_log w' = ["rm -rf /out/bids_defaced/sub-01/anat/sub-01_T1w.face_plus.nii.gz"]
    /\ map fst (fs w')
       = [anat; anat // "workdir_sub-01_T1w";
          anat // "workdir_sub-01_T1w" // "tmp.05.sh_t2a_thr.nii";
          anat // "__work_refacer.sub-01_PDw"; anat // "sub-01_T1w.face_plus.QC"].
Proof.
  intros anat workdir w. split; [split; reflexivity |].
  destruct (rename_afni_workdir_canonical Sim.tools_ok workdir "sub-01_T1w" w eq_refl eq_refl)
    as [w' [H1 [H2 H3]]].
  exists w'. split; [exact H1 |]. rewrite H2, H3. split; reflexivity.
Defined.

(** C8 as stated fails: an entry of the parent directory that is not the
    working directory and does not end with [QC] or [defacing_pipeline.log]
    is kept when its name starts with [__work]; here the working directory
    that an interrupted earlier run left behind, and a regular file. *)
Lemma rename_afni_workdir_keeps_work_entries :
  let anat := PathLib.of_str "/out/bids_defaced/sub-01/anat" in
  let workdir := anat // "__work_refacer.sub-01_T1w" in
  let stale := anat // "__work_refacer_old.sub-01_T1w" in
  let notes := anat // "__work_notes.txt" in
  let tree := [(anat, Dir); (workdir, Dir); (stale, Dir); (notes, File "notes");
               (anat // "sub-01_T1w.face_plus.nii.gz", File "volume")] in
  let r := rename_afni_workdir Sim.tools_ok workdir (Sim.world_of tree) in
  Forall (fun f =>
            In f (Fs.children (PathLib.parent workdir) tree)
            /\ f <> workdir
            /\ Py.endswith (PathLib.name f) "QC" = false
            /\ Py.endswith (PathLib.name f) "defacing_pipeline.log" = false
            /\ ~ In (PathLib.to_str f) (to_be_deleted_files workdir tree)
            /\ Fs.exists_ f (fs (fst r)) = true)
         [stale; notes]
  /\ snd r = Ok (anat // "workdir_sub-01_T1w")
  /\ shell_log (fst r) = ["rm -rf /out/bids_defaced/sub-01/anat/sub-01_T1w.face_plus.nii.gz"].
Proof.
  intros anat workdir stale notes tree r.
  assert (kept : forall f,
             In f [stale; notes] ->
             In f (Fs.children (PathLib.parent workdir) tree)
             /\ f <> workdir
             /\ Py.endswith (PathLib.name f) "QC" = false
             /\ Py.endswith (PathLib.name f) "defacing_pipeline.log" = false
             /\ ~ In (PathLib.to_str f) (to_be_deleted_files workdir tree)
             /\ Fs.exists_ f (fs (fst r)) = true).
  { intros f [<- | [<- | []]].
    - split; [vm_compute; auto |].
      split; [intros H; apply path_eqb_eq in H; vm_compute in H; discriminate |].
      split; [reflexivity |]. split; [reflexivity |].
      split; [vm_compute; intros [H | []]; discriminate | reflexivity].
    - split; [vm_compute; auto |].
      split; [intros H; apply path_eqb_eq in H; vm_compute in H; discriminate |].
      split; [reflexivity |]. split; [reflexivity |].
      split; [vm_compute; intros [H | []]; discriminate | reflexivity]. }
  split; [apply Forall_forall; exact kept | split; reflexivity].
Qed.

(** ** Compression (deface.py, lines 30-34) *)

(** After an invocation that returned, the destination is there. *)
Lemma compress_to_gz_destination (gz : string -> string) (i o : Path) (w w' : World) :
  compress_to_gz gz i o w = (w', Ok tt) -> Fs.exists_ o (fs w') = true.
Proof.
  unfold compress_to_gz, bind, get_fs, lift, on_fs, ret.
  destruct (Fs.exists_ o (fs w)) eqn:E; simpl.
  - intros [= <-]. exact E.
  - destruct (Fs.read_file i (fs w)) as [c | e]; [| discriminate].
    destruct (Fs.write_file o (gz c) (fs w)) as [tree' | e] eqn:W; [| discriminate].
    intros [= <-]. simpl. eapply write_file_exists, W.
Qed.

(** C9. The compression step is idempotent: when the destination is there
    already, in particular when a first invocation has just produced
    it, the step writes nothing and the world, the destination's bytes
    included, stays as it is. *)
Theorem compress_to_gz_idempotent (gz : string -> string) (i o : Path) (w : World) :
  Fs.exists_ o (fs w) = true \/ (exists w0, compress_to_gz gz i o w0 = (w, Ok tt)) ->
  compress_to_gz gz i o w = (w, Ok tt).
Proof.
  intros H.
  assert (E : Fs.exists_ o (fs w) = true).
  { destruct H as [H | [w0 H]]; [exact H | eapply compress_to_gz_destination, H]. }
  unfold compress_to_gz, bind, get_fs, ret. now rewrite E.
Qed.

Lemma compress_to_gz_idempotent_witness :
  let i := PathLib.of_str "/out/anat/tmp.99.result.deface.nii" in
  let o := PathLib.of_str "/out/anat/sub-01_T1w.nii.gz" in
  let w0 := Sim.world_of [(PathLib.of_str "/out/anat", Dir); (i, File "volume")] in
  let w1 := fst (compress_to_gz (fun b => "gz:" ++ b) i o w0) in
  Fs.lookup o (fs w1) = Some (File "gz:volume") /\
  compress_to_gz (fun b => "gz:" ++ b) i o w1 = (w1, Ok tt).
Proof.
  split; [reflexivity |].
  apply compress_to_gz_idempotent. right.
  exists (Sim.world_of [(PathLib.of_str "/out/anat", Dir);
                        (PathLib.of_str "/out/anat/tmp.99.result.deface.nii", File "volume")]).
  reflexivity.
Defined.

(** ** The acquisition label (deface.py, lines 136-146) *)

(** Only the last token counts. *)
Lemma acq_of_entities_last (l : list string) (x : string) :
  acq_of_entities (l ++ [x]) = acq_step None x.
Proof.
  unfold acq_of_entities. rewrite fold_left_app. simpl.
  unfold acq_step. now destruct (Py.startswith x "acq-").
Qed.

(** Whenever the last token is not an [acq-] token, as in every name that
    ends with its suffix and extension, the label is empty. *)
Lemma acq_empty_unless_last (l : list string) (x : string) :
  Py.startswith x "acq-" = false -> acq_of_entities (l ++ [x]) = Some "".
Proof.
  intros H. rewrite acq_of_entities_last. unfold acq_step. now rewrite H.
Qed.

(** The index 1 of [i.split('-')] is in range for a token that starts with
    [acq-]. *)
Lemma acq_token_in_range (i : string) :
  Py.startswith i "acq-" = true -> nth_error (Py.split "-" i) 1 <> None.
Proof.
  intros H.
  destruct i as [| a [| b [| c [| d r]]]]; simpl in H; try discriminate H;
    try (rewrite ?andb_false_r in H; discriminate H).
  apply andb_prop in H. destruct H as [Ea H].
  apply andb_prop in H. destruct H as [Eb H].
  apply andb_prop in H. destruct H as [Ec H].
  apply andb_prop in H. destruct H as [Ed _].
  apply Ascii.eqb_eq in Ea, Eb, Ec, Ed. subst.
  change (String "a" (String "c" (String "q" (String "-" r))))
    with ("acq" ++ String "-" r).
  rewrite split_token by reflexivity. simpl.
  pose proof (split_nonempty "-" r). destruct (Py.split "-" r); congruence.
Qed.

(** The label is assigned whatever the name is. *)
Lemma acq_of_entities_assigned (s : string) :
  exists acq, acq_of_entities (Py.split "_" s) = Some acq.
Proof.
  rewrite (app_removelast_last "" (split_nonempty "_" s)), acq_of_entities_last.
  unfold acq_step. destruct (Py.startswith _ "acq-"); eauto.
Qed.

(** C6 fails on the code.  A primary with the acquisition entity
    [acq-mprage]: the label computed is the empty string, and the output
    subdirectory is [anat] itself. *)
Theorem acq_label_of_labelled_scan :
  let primary := PathLib.of_str Sim.t1w_01 in
  let r := run_afni_refacer Sim.tools_ok (Some Sim.t1w_01) [] (PathLib.of_str "/data/bids/sub-01")
             "" Sim.bids_defaced_outdir "standard" (Sim.world_of Sim.input_tree) in
  Py.split "_" (PathLib.name primary) = ["sub-01"; "acq-mprage"; "T1w.nii.gz"]
  /\ acq_of_entities (Py.split "_" (PathLib.name primary)) = Some ""
  /\ hd "" (shell_log (fst r))
     = "@afni_refacer_run -input /data/bids/sub-01/anat/sub-01_acq-mprage_T1w.nii.gz -mode_deface -no_clean -prefix /out/bids_defaced/sub-01/anat/sub-01_acq-mprage_T1w"
  /\ Fs.exists_ (Sim.bids_defaced_outdir // "sub-01" // "anat" // "mprage") (fs (fst r)) = false.
Proof. vm_compute. repeat split. Qed.

(** ** The loop over the primaries (deface.py, lines 120-177) *)

Lemma bind_not_none {A B} (m : M A) (k : A -> M (option B)) :
  (forall a w w', k a w <> (w', Ok None)) ->
  forall w w', bind m k w <> (w', Ok None).
Proof.
  intros H w w'. unfold bind. destruct (m w) as [w1 [a | e]]; [apply H | discriminate].
Qed.

(** The body of the loop never falls through: it returns or raises. *)
Lemma reface_one_returns
  (shell : string -> FS -> FS * outcome) (primary_t1 : option string)
  (all_others : list string) (subj_input_dir : Path) (sess_id : string)
  (output_dir : Path) (mode primary : string) (w w' : World) :
  reface_one shell primary_t1 all_others subj_input_dir sess_id output_dir mode primary w
  <> (w', Ok None).
Proof.
  unfold reface_one.
  destruct (acq_of_entities _) as [acq |]; [| discriminate].
  revert w w'. do 7 (apply bind_not_none; intros ?).
  destruct (Fs.glob _ _ _); repeat (apply bind_not_none; intros ?);
    intros ? ?; discriminate.
Qed.

Lemma for_return_first {A R} (body : A -> M (option R)) (x : A) (l : list A) (w : World) :
  (forall w1 w2, body x w1 <> (w2, Ok None)) ->
  for_return (x :: l) body w = body x w.
Proof.
  intros H. simpl. unfold bind. specialize (H w).
  destruct (body x w) as [w1 [[v |] | e]]; try reflexivity.
  now contradiction (H w1).
Qed.

(** With the primary unset, [run_afni_refacer] is the loop body applied to
    the first of the other scans: the [return] at the end of the body ends
    the loop, and the scans after the first are never looked at. *)
Lemma run_afni_refacer_unset_primary
  (shell : string -> FS -> FS * outcome) (other : string) (rest : list string)
  (subj_input_dir : Path) (sess_id : string) (output_dir : Path) (mode : string)
  (w : World) :
  run_afni_refacer shell None (other :: rest) subj_input_dir sess_id output_dir mode w
  = reface_one shell None [] subj_input_dir sess_id output_dir mode other w.
Proof.
  unfold run_afni_refacer. apply for_return_first. intros. apply reface_one_returns.
Qed.

(** With a primary, the loop has that one scan to go through. *)
Lemma run_afni_refacer_set_primary
  (shell : string -> FS -> FS * outcome) (p : string) (others : list string)
  (subj_input_dir : Path) (sess_id : string) (output_dir : Path) (mode : string)
  (w : World) :
  Py.truthy p = true ->
  run_afni_refacer shell (Some p) others subj_input_dir sess_id output_dir mode w
  = reface_one shell (Some p) others subj_input_dir sess_id output_dir mode p w.
Proof.
  intros H. unfold run_afni_refacer. rewrite H.
  apply for_return_first. intros. apply reface_one_returns.
Qed.

(** Nothing to process: the function returns Python's [None]. *)
Lemma run_afni_refacer_nothing
  (shell : string -> FS -> FS * outcome) (subj_input_dir : Path) (sess_id : string)
  (output_dir : Path) (mode : string) (w : World) :
  run_afni_refacer shell None [] subj_input_dir sess_id output_dir mode w = (w, Ok None).
Proof. reflexivity. Qed.

(** C1 fails on the code.  A session without a primary and with two other
    scans: one defacing command is run, for the first scan; the
    second scan appears in no command and gets no working directory. *)
Theorem run_afni_refacer_unset_primary_two_scans :
  let r := run_afni_refacer Sim.tools_ok None [Sim.t2w_02; Sim.pdw_02]
             (PathLib.of_str "/data/bids/sub-02") "ses-1" Sim.bids_defaced_outdir
             "standard" (Sim.world_of Sim.input_tree) in
  snd r = Ok (Some "")
  /\ filter (fun c => Py.startswith c "@afni_refacer_run") (shell_log (fst r))
     = ["@afni_refacer_run -input None -mode_deface -no_clean -prefix /out/bids_defaced/sub-02/ses-1/anat/sub-02_ses-1_T2w"]
  /\ existsb (fun c => Py.contains c "sub-02_ses-1_PDw") (shell_log (fst r)) = false
  /\ Fs.rglob Sim.bids_defaced_outdir (fun n => Py.startswith n "workdir_") (fs (fst r))
     = [Sim.bids_defaced_outdir // "sub-02" // "ses-1" // "anat" // "workdir_sub-02_ses-1_T2w"].
Proof. vm_compute. repeat split. Qed.

(** C5 fails on the code.  The command is built from [primary_t1], not from
    the scan of the iteration: when a secondary scan stands in for a missing
    primary, [-input] is followed by [None]. *)
Theorem refacer_cmd_input_of_promoted_scan :
  let r := run_afni_refacer Sim.tools_ok None [Sim.t2w_02] (PathLib.of_str "/data/bids/sub-02")
             "ses-1" Sim.bids_defaced_outdir "aggressive" (Sim.world_of Sim.input_tree) in
  hd "" (shell_log (fst r))
  = "@afni_refacer_run -input None -mode_deface -no_clean -prefix /out/bids_defaced/sub-02/ses-1/anat/sub-02_ses-1_T2w -shell afni_refacer_shell_sym_2.0.nii.gz"
  /\ Py.contains (hd "" (shell_log (fst r))) Sim.t2w_02 = false.
Proof. vm_compute. split; reflexivity. Qed.

(** The shape of the command when the unit has a primary: [-input] is the
    primary, and the prefix is its name up to the first dot, in its output
    subdirectory. *)
Lemma refacer_cmd_shape (p : string) (target : Path) (mode : string) :
  refacer_cmd (Some p) target mode
  = "@afni_refacer_run -input " ++ p ++ " -mode_deface -no_clean -prefix "
    ++ PathLib.to_str target
    ++ (if String.eqb mode "aggressive" then " -shell afni_refacer_shell_sym_2.0.nii.gz" else "").
Proof.
  unfold refacer_cmd, Py.fmt_opt.
  destruct (String.eqb mode "aggressive").
  - now rewrite !str_append_assoc.
  - now rewrite !str_append_empty.
Qed.

(** ** No working directory, no registration (deface.py, lines 164-177) *)

(** When the glob finds no working directory after the defacing command,
    the body returns the prefix of the primary as the failure record, and
    the defacing command is the only command it has run. *)
Lemma reface_one_without_workdir
  (shell : string -> FS -> FS * outcome) (primary_t1 : option string)
  (all_others : list string) (subj_input_dir : Path) (sess_id : string)
  (output_dir : Path) (mode primary acq : string) (w : World) (tree : FS) :
  let scan := PathLib.of_str primary in
  let dir := output_dir // PathLib.name subj_input_dir // sess_id // "anat" // acq in
  let prefix := hd "" (Py.split "." (PathLib.name scan)) in
  let cmd := refacer_cmd primary_t1 (dir // prefix) mode in
  acq_of_entities (Py.split "_" (PathLib.name scan)) = Some acq ->
  (if Fs.exists_ dir (fs w) then Ok (fs w) else Fs.mkdir_p dir (fs w)) = Ok tree ->
  Fs.glob dir (fun n => Py.contains n "work_refacer") (fst (shell cmd tree)) = [] ->
  exists w',
    reface_one shell primary_t1 all_others subj_input_dir sess_id output_dir mode primary w
    = (w', Ok (Some prefix))
    /\ shell_log w' = (shell_log w ++ [cmd])%list
    /\ fs w' = fst (shell cmd tree).
Proof.
  intros scan dir prefix cmd Hacq Hdir Hglob.
  unfold reface_one. fold scan. rewrite Hacq. fold dir. fold prefix. fold cmd.
  unfold bind at 1, get_fs at 1.
  assert (D : exists w1,
             (if negb (Fs.exists_ dir (fs w)) then on_fs (Fs.mkdir_p dir) else ret tt) w
             = (w1, Ok tt)
             /\ fs w1 = tree /\ shell_log w1 = shell_log w).
  { destruct (Fs.exists_ dir (fs w)); simpl.
    - injection Hdir as <-. now exists w.
    - unfold on_fs. rewrite Hdir. eexists. repeat split. }
  destruct D as [w1 [D [F L]]].
  unfold bind at 1. rewrite D.
  unfold bind, say, utils_run_command, get_fs. cbn [fs shell_log messages reorganized stat_error].
  rewrite F, L.
  destruct (shell cmd tree) as [tree2 o]. cbn [fst snd out err] in *.
  destruct (Py.truthy (err o)); cbn [fs shell_log messages reorganized stat_error];
    rewrite Hglob; eexists; repeat split.
Qed.

(** ** The scans of a unit (deface.py, lines 197-211) *)

(** C10. When the unit has a primary scan, no secondary scan handed to
    [run_afni_refacer] equals it: its occurrences in the mapping's [others]
    are filtered out. *)
Theorem others_exclude_primary (u : scans) (p : string) :
  primary_t1 u = Some p -> ~ In p (snd (unit_scans u)).
Proof.
  intros Hp Hin. unfold unit_scans in Hin. simpl in Hin. rewrite Hp in Hin.
  apply filter_In in Hin. destruct Hin as [_ Hin].
  now rewrite String.eqb_refl in Hin.
Qed.

Lemma others_exclude_primary_witness :
  primary_t1 (mkScans (Some Sim.t1w_01) [Sim.t1w_01; Sim.t2w_01]) = Some Sim.t1w_01 /\
  ~ In Sim.t1w_01 (snd (unit_scans (mkScans (Some Sim.t1w_01) [Sim.t1w_01; Sim.t2w_01]))).
Proof.
  split; [reflexivity |].
  apply (others_exclude_primary (mkScans (Some Sim.t1w_01) [Sim.t1w_01; Sim.t2w_01])).
  reflexivity.
Defined.

(** X9. The scans handed on as secondaries are exactly the entries of
    [others] that differ from the primary: nothing else is dropped, and with
    the primary unset every entry is kept. *)
Lemma unit_scans_keeps (u : scans) (s : string) :
  In s (snd (unit_scans u)) <-> In s (others u) /\ primary_t1 u <> Some s.
Proof.
  unfold unit_scans; simpl. rewrite filter_In.
  destruct (primary_t1 u) as [p |]; simpl.
  - destruct (String.eqb_spec s p) as [-> | N]; simpl; split;
      intros [H1 H2]; try discriminate; try congruence; split; auto; congruence.
  - split; intros [H1 H2]; split; auto; discriminate.
Qed.

(** ** Reorganization after defacing (deface.py, lines 79-83 and 214-217) *)

(** [reorganize_into_bids] receives the subject's input directory where it
    expects the subject's identifier, and joins it to the output root: an
    absolute directory replaces the output root. *)
Lemma reorganize_root_absolute (bids_defaced_outdir subj_input_dir : Path)
  (sess_dir : option Path) :
  anchored subj_input_dir = true ->
  match sess_dir with
  | Some d => anchored d = true
  | None => True
  end ->
  reorganize_root bids_defaced_outdir subj_input_dir sess_dir
  = match sess_dir with
    | Some d => d
    | None => subj_input_dir
    end.
Proof.
  intros Hs Hd. unfold reorganize_root, PathLib.join.
  destruct sess_dir as [d |]; [now rewrite Hd | now rewrite Hs].
Qed.

(** C3 fails on the code.  A subject whose primary is defaced and whose
    secondary scan is registered: the reorganizer then runs, but on the
    [anat] directory of the input dataset.  The unit's output directory
    keeps the working directory and receives no defaced volume, and the QC
    link [defaced.nii.gz] points at the original scan. *)
Theorem reorganization_misses_output_directory :
  let subj_input_dir := PathLib.of_str "/data/bids/sub-01" in
  let anat := Sim.bids_defaced_outdir // "sub-01" // "anat" in
  let r := deface_primary_scan Sim.tools_ok Sim.gz Sim.input_dir subj_input_dir None
             Sim.mapping_dict Sim.bids_defaced_outdir "standard" false false
             (Sim.world_of Sim.input_tree) in
  snd r = Ok [Some ""]
  /\ reorganize_root Sim.bids_defaced_outdir subj_input_dir None = subj_input_dir
  /\ reorganized (fst r) = [PathLib.of_str "/data/bids/sub-01/anat"]
  /\ Fs.lookup anat (fs (fst r)) = Some Dir
  /\ Fs.lookup (anat // "workdir_sub-01_acq-mprage_T1w") (fs (fst r)) = Some Dir
  /\ Fs.exists_ (anat // "work_dir") (fs (fst r)) = false
  /\ Fs.exists_ (anat // "sub-01_acq-mprage_T1w.nii.gz") (fs (fst r)) = false
  /\ Fs.exists_ (anat // "sub-01_T2w.nii.gz") (fs (fst r)) = false
  /\ Fs.lookup (Sim.output // "defacing_QC" // "sub-01" // "T2w" // "defaced.nii.gz")
               (fs (fst r))
     = Some (Link (PathLib.of_str Sim.t2w_01)).
Proof. vm_compute. repeat split. Qed.

(** The same reorganizer, given the identifier of the subject after the same
    defacing run, works on the unit's output directory: the defaced volumes
    and their sidecars arrive in [anat], the working directory is archived,
    and the QC link points at the defaced volume. *)
Lemma reorganization_with_identifier :
  let subj_input_dir := PathLib.of_str "/data/bids/sub-01" in
  let anat := Sim.bids_defaced_outdir // "sub-01" // "anat" in
  let w := fst (run_afni_refacer Sim.tools_ok (Some Sim.t1w_01) [Sim.t2w_01] subj_input_dir ""
                  Sim.bids_defaced_outdir "standard" (Sim.world_of Sim.input_tree)) in
  let r := reorganize_into_bids Sim.gz Sim.input_dir (PathLib.of_str "sub-01") None
             (Some Sim.t1w_01) Sim.bids_defaced_outdir true w in
  snd r = Ok tt
  /\ reorganized (fst r) = [anat]
  /\ Fs.lookup (anat // "sub-01_acq-mprage_T1w.nii.gz") (fs (fst r)) = Some (File "gz:defaced")
  /\ Fs.lookup (anat // "sub-01_T2w.nii.gz") (fs (fst r)) = Some (File "defaced")
  /\ Fs.lookup (anat // "sub-01_T2w.json") (fs (fst r)) = Some (File "{}")
  /\ Fs.lookup (anat // "work_dir" // "afni_workdir_sub-01_acq-mprage_T1w") (fs (fst r))
     = Some Dir
  /\ Fs.lookup (Sim.output // "defacing_QC" // "sub-01" // "T2w" // "defaced.nii.gz")
               (fs (fst r))
     = Some (Link (anat // "sub-01_T2w.nii.gz")).
Proof. vm_compute. repeat split. Qed.

(** ** The driver (dsst_defacing_wf.py, lines 96-134) *)

(** The call of [deface_primary_scan] in the driver's loop passes six
    arguments to eight parameters: the first unit raises [TypeError] and
    nothing has been done. *)
Lemma process_units_raises
  (shell : string -> FS -> FS * outcome)
  (gzip_bytes : string -> string)
  (a : args) (mapping_dict : mapping) (bids_defaced_outdir : Path)
  (u : Path * option Path) (units : list (Path * option Path))
  (failures : list (option string)) (w : World) :
  process_units shell gzip_bytes a mapping_dict bids_defaced_outdir (u :: units)
                failures w
  = (w, Raise TypeError).
Proof. reflexivity. Qed.

(** C4 fails on the code.  The driver run for one subject: the unit list is
    resolved, the call for the first unit raises [TypeError], no command has
    been run and the report file is not written. *)
Theorem main_raises_on_first_unit :
  let a := mkArgs Sim.input_dir Sim.output (Some "sub-02") None false false in
  let r := main Sim.tools_ok Sim.gz "dsst_defacing_wf.py" Sim.crawl a
             (Sim.world_of Sim.input_tree) in
  fst (subj_sess_list a Sim.mapping_dict (Sim.world_of Sim.input_tree))
    = Sim.world_of Sim.input_tree
  /\ snd (subj_sess_list a Sim.mapping_dict (Sim.world_of Sim.input_tree))
     = Ok [(PathLib.of_str "/data/bids/sub-02", Some (PathLib.of_str "/data/bids/sub-02/ses-1"))]
  /\ snd r = Raise TypeError
  /\ shell_log (fst r) = []
  /\ Fs.exists_ (report_path Sim.output) (fs (fst r)) = false.
Proof. vm_compute. repeat split. Qed.

(** A subject without sessions is listed once per key of its entry, that is
    twice: [get_sess_dirs] maps the keys [primary_t1] and [others] to the
    empty session. *)
Example flat_subject_listed_twice :
  snd (subj_sess_list (mkArgs Sim.input_dir Sim.output (Some "sub-01") None false false)
                      Sim.mapping_dict (Sim.world_of Sim.input_tree))
  = Ok [(PathLib.of_str "/data/bids/sub-01", None); (PathLib.of_str "/data/bids/sub-01", None)].
Proof. reflexivity. Qed.

Lemma getitem_pure {V} (d : list (string * V)) (k : string) (w : World) :
  fst (getitem d k w) = w.
Proof.
  induction d as [| [k' v] d IH]; simpl; [reflexivity |].
  now destruct (String.eqb k' k).
Qed.

Lemma get_sess_dirs_pure (subj_dir_path : Path) (mapping_dict : mapping) (w : World) :
  fst (get_sess_dirs subj_dir_path mapping_dict w) = w.
Proof.
  unfold get_sess_dirs, bind.
  pose proof (getitem_pure mapping_dict (PathLib.name subj_dir_path) w) as G.
  destruct (getitem mapping_dict (PathLib.name subj_dir_path) w) as [w1 [e | x]];
    simpl in *; now subst.
Qed.

Lemma all_units_pure (mapping_dict : mapping) (subj_dirs : list Path) (w : World) :
  fst (all_units mapping_dict subj_dirs w) = w.
Proof.
  induction subj_dirs as [| d l IH]; simpl; [reflexivity |].
  unfold bind.
  pose proof (get_sess_dirs_pure d mapping_dict w) as G.
  destruct (get_sess_dirs d mapping_dict w) as [w1 [s | x]]; simpl in *; subst; [| reflexivity].
  destruct (all_units mapping_dict l w) as [w2 [r | x]]; simpl in *; now subst.
Qed.

Lemma subj_sess_list_pure (a : args) (mapping_dict : mapping) (w : World) :
  fst (subj_sess_list a mapping_dict w) = w.
Proof.
  unfold subj_sess_list.
  destruct (Py.truthy_opt (arg_subj_id a)); simpl.
  - destruct (Py.truthy_opt (arg_sess_id a)); simpl; [reflexivity |].
    unfold bind.
    pose proof (get_sess_dirs_pure (arg_input a // Py.fmt_opt (arg_subj_id a)) mapping_dict w) as G.
    destruct (get_sess_dirs _ mapping_dict w) as [w1 [s | x]]; simpl in *; now subst.
  - unfold bind, get_fs. apply all_units_pure.
Qed.

Lemma process_units_pure
  (shell : string -> FS -> FS * outcome) (gzip_bytes : string -> string)
  (a : args) (mapping_dict : mapping) (bids_defaced_outdir : Path)
  (units : list (Path * option Path)) (failures : list (option string)) (w : World) :
  fst (process_units shell gzip_bytes a mapping_dict bids_defaced_outdir units failures w) = w.
Proof. destruct units; reflexivity. Qed.

Lemma on_fs_log (op : FS -> result FS) (w : World) : shell_log (fst (on_fs op w)) = shell_log w.
Proof. unfold on_fs. now destruct (op (fs w)). Qed.

(** X12. Without [--swarm] the driver never gets to run an external
    command, whatever the arguments, the mapping and the dataset are: with
    no unit there is nothing to run, and with a unit the first call
    raises. *)
Lemma main_runs_no_command
  (shell : string -> FS -> FS * outcome) (gzip_bytes : string -> string)
  (script_path : string) (crawl : Path -> Path -> FS -> FS * result mapping)
  (cmdline : args) (w : World) :
  arg_swarm cmdline = false ->
  shell_log (fst (main shell gzip_bytes script_path crawl cmdline w)) = shell_log w.
Proof.
  intros Hs. unfold main, bind at 1, get_args.
  destruct (negb (Py.truthy_opt (arg_subj_id cmdline)) && Py.truthy_opt (arg_sess_id cmdline));
    [reflexivity |].
  unfold ret at 1. rewrite Hs. unfold bind at 1.
  destruct (crawl (arg_input cmdline) (arg_output cmdline) (fs w)) as [tree [m | x]];
    [| reflexivity].
  set (w1 := mkWorld tree (shell_log w) (messages w) (reorganized w) (stat_error w)).
  change (shell_log w) with (shell_log w1). generalize w1. clear w w1. intros w.
  unfold bind at 1.
  pose proof (on_fs_log (Fs.mkdir_p (arg_output cmdline // "bids_defaced")) w) as L1.
  destruct (on_fs (Fs.mkdir_p (arg_output cmdline // "bids_defaced")) w) as [w2 [[] | x]];
    simpl in L1; [| exact L1].
  rewrite <- L1. clear L1 w. unfold bind at 1.
  pose proof (subj_sess_list_pure cmdline m w2) as L2.
  destruct (subj_sess_list cmdline m w2) as [w3 [units | x]]; simpl in L2; subst w3;
    [| reflexivity].
  unfold bind at 1.
  pose proof (process_units_pure shell gzip_bytes cmdline m (arg_output cmdline // "bids_defaced")
                                 units [] w2) as L3.
  destruct (process_units shell gzip_bytes cmdline m _ units [] w2) as [w3 [fl | x]];
    simpl in L3; subst w3; [| reflexivity].
  unfold bind at 1.
  pose proof (on_fs_log (Fs.write_file (report_path (arg_output cmdline)) "") w2) as L4.
  destruct (on_fs (Fs.write_file (report_path (arg_output cmdline)) "") w2) as [w3 [[] | x]];
    simpl in L4; [| exact L4].
  rewrite <- L4. clear L4. unfold bind at 1.
  assert (A : forall l w, fst (all_str l w) = w).
  { clear. induction l as [| [s |] l IH]; intros w; simpl; try reflexivity.
    unfold bind. specialize (IH w). destruct (all_str l w) as [w' [r | x]]; simpl in *; now subst. }
  pose proof (A fl w3) as L5.
  destruct (all_str fl w3) as [w4 [lines | x]]; simpl in L5; subst w4; [| reflexivity].
  apply on_fs_log.
Qed.

(** * Further properties of the code *)

(** ** Splitting and joining *)

Lemma split_lacks (c : ascii) (s : string) : Py.lacks c s = true -> Py.split c s = [s].
Proof.
  induction s as [| a r IH]; simpl; [reflexivity |].
  intros H. apply andb_prop in H. destruct H as [Ha Hr].
  apply negb_true_iff in Ha. rewrite Ha, (IH Hr). reflexivity.
Qed.

Lemma split_app (c : ascii) (a b : string) :
  Py.split c (a ++ String c b) = (Py.split c a ++ Py.split c b)%list.
Proof.
  induction a as [| x a IH]; simpl.
  - now rewrite Ascii.eqb_refl.
  - destruct (Ascii.eqb x c); rewrite IH; [reflexivity |].
    pose proof (split_nonempty c a) as N.
    destruct (Py.split c a); [congruence | reflexivity].
Qed.

Lemma split2_nonempty (c d : ascii) (s : string) : Py.split2 c d s <> [].
Proof.
  destruct s as [| a r]; simpl; [discriminate |].
  destruct (Ascii.eqb a c || Ascii.eqb a d); [discriminate |].
  destruct (Py.split2 c d r); discriminate.
Qed.

Lemma split2_app (c d x : ascii) (a b : string) :
  Ascii.eqb x c || Ascii.eqb x d = true ->
  Py.split2 c d (a ++ String x b) = (Py.split2 c d a ++ Py.split2 c d b)%list.
Proof.
  intros Hx. induction a as [| y a IH]; simpl.
  - now rewrite Hx.
  - destruct (Ascii.eqb y c || Ascii.eqb y d); rewrite IH; [reflexivity |].
    pose proof (split2_nonempty c d a) as N.
    destruct (Py.split2 c d a); [congruence | reflexivity].
Qed.

(** Joining the tokens with the separator gives the string back. *)
Lemma join_split (c : ascii) (s : string) : Py.join (String c "") (Py.split c s) = s.
Proof.
  unfold Py.join. induction s as [| a r IH]; simpl; [reflexivity |].
  pose proof (split_nonempty c r) as N.
  destruct (Ascii.eqb_spec a c) as [-> | Hac].
  - destruct (Py.split c r) as [| h t]; [congruence |]. simpl in *. now rewrite IH.
  - destruct (Py.split c r) as [| h t]; [congruence |].
    destruct t as [| h' t]; simpl in *; now rewrite <- IH.
Qed.

(** ** The acquisition label and the loop over the primaries *)

(** X4. The acquisition label of a scan name is decided by its last
    underscore-delimited token alone: the part between the first and the
    second hyphen of that token when it starts with [acq-], and the empty
    string otherwise. *)
Theorem acq_label_of_last_token (s : string) :
  acq_of_entities (Py.split "_" s)
  = Some (let x := last (Py.split "_" s) "" in
          if Py.startswith x "acq-" then nth 1 (Py.split "-" x) "" else "").
Proof.
  rewrite (app_removelast_last "" (split_nonempty "_" s)) at 1.
  rewrite acq_of_entities_last. unfold acq_step.
  now destruct (Py.startswith _ "acq-").
Qed.

(** X2. [run_afni_refacer] returns Python's [None] exactly when there is
    nothing to process, that is when the primary is unset and the list of
    other scans is empty; with a scan to process it returns a string or
    raises. *)
Theorem run_afni_refacer_none_iff
  (shell : string -> FS -> FS * outcome) (primary_t1 : option string) (others : list string)
  (subj_input_dir : Path) (sess_id : string) (output_dir : Path) (mode : string) (w : World) :
  (exists w', run_afni_refacer shell primary_t1 others subj_input_dir sess_id output_dir mode w
              = (w', Ok None))
  <-> (Py.truthy_opt primary_t1 = false /\ others = []).
Proof.
  split.
  - intros [w' H]. unfold run_afni_refacer in H.
    assert (F : forall p l o, for_return (p :: l)
                  (reface_one shell primary_t1 o subj_input_dir sess_id output_dir mode) w
                <> (w', Ok None)).
    { intros p l o. rewrite for_return_first by (intros; apply reface_one_returns).
      apply reface_one_returns. }
    destruct primary_t1 as [p |]; simpl.
    + destruct (Py.truthy p); [now apply F in H |].
      destruct others; [auto | now apply F in H].
    + destruct others; [auto | now apply F in H].
  - intros [Hp ->]. exists w. unfold run_afni_refacer.
    destruct primary_t1 as [p |]; simpl in Hp; [rewrite Hp |]; reflexivity.
Qed.

(** ** The working directory *)

(** X8. A working directory whose name has no dot makes
    [rename_afni_workdir] raise [IndexError] at once: no file is deleted, no
    command is run and the directory is not renamed. *)
Theorem rename_afni_workdir_without_dot
  (shell : string -> FS -> FS * outcome) (workdir_path : Path) (w : World) :
  Py.lacks "." (PathLib.name workdir_path) = true ->
  exists w',
    rename_afni_workdir shell workdir_path w = (w', Raise IndexError)
    /\ fs w' = fs w
    /\ shell_log w' = shell_log w.
Proof.
  intros H. unfold rename_afni_workdir, bind, say, index.
  rewrite (split_lacks _ _ H). simpl. eexists. repeat split.
Qed.

Lemma rename_afni_workdir_without_dot_witness :
  Py.lacks "." (PathLib.name (PathLib.of_str "/out/anat/__work_refacer_tmp")) = true
  /\ exists w',
       rename_afni_workdir Sim.tools_ok (PathLib.of_str "/out/anat/__work_refacer_tmp")
                           (Sim.world_of Sim.input_tree) = (w', Raise IndexError)
       /\ fs w' = Sim.input_tree
       /\ shell_log w' = [].
Proof.
  split; [reflexivity |].
  exact (rename_afni_workdir_without_dot Sim.tools_ok (PathLib.of_str "/out/anat/__work_refacer_tmp")
           (Sim.world_of Sim.input_tree) eq_refl).
Defined.

(** ** Registration *)

Lemma for_each_stops {A} (body : A -> M unit) (pre : list A) (bad : A) (rest : list A)
  (e : exn) (w : World) :
  (forall w1, body bad w1 = (w1, Raise e)) ->
  for_each (pre ++ bad :: rest) body w = for_each (pre ++ [bad]) body w
  /\ exists e', snd (for_each (pre ++ bad :: rest) body w) = Raise e'.
Proof.
  intros Hbad. revert w. induction pre as [| x pre IH]; intros w; simpl.
  - unfold bind. rewrite Hbad. simpl. split; [reflexivity | eauto].
  - unfold bind. destruct (body x w) as [w1 [[] | e1]]; simpl; [apply IH |].
    split; [reflexivity | eauto].
Qed.

(** X7. A secondary scan whose name has no underscore stops the
    registration: the engine raises when it reaches that scan, before making
    a directory or running a command for it, and the scans listed after it
    are not registered. *)
Theorem register_stops_at_name_without_underscore
  (shell : string -> FS -> FS * outcome) (subj_dir afni_workdir primary_scan : Path)
  (pre : list string) (bad : string) (rest : list string) (w : World) :
  Py.lacks "_" bad = true ->
  register_to_primary_scan shell subj_dir afni_workdir primary_scan (pre ++ bad :: rest) w
  = register_to_primary_scan shell subj_dir afni_workdir primary_scan (pre ++ [bad]) w
  /\ exists e, snd (register_to_primary_scan shell subj_dir afni_workdir primary_scan
                      (pre ++ bad :: rest) w) = Raise e.
Proof.
  intros H. unfold register_to_primary_scan.
  assert (B : forall m w2, register_one shell subj_dir afni_workdir primary_scan m bad w2
                           = (w2, Raise IndexError)).
  { intros m w2. unfold register_one, bind, index. now rewrite (split_lacks _ _ H). }
  unfold bind.
  destruct (preprocess_facemask shell _ w) as [w1 [m | e]]; [| simpl; eauto].
  apply for_each_stops with (e := IndexError). apply B.
Qed.

Lemma register_stops_at_name_without_underscore_witness :
  let workdir := Sim.bids_defaced_outdir // "sub-01" // "anat" // "workdir_sub-01_T1w" in
  let run l := register_to_primary_scan Sim.tools_ok (PathLib.of_str "/data/bids/sub-01") workdir
                 (PathLib.of_str Sim.t1w_01) l (Sim.world_of Sim.input_tree) in
  Py.lacks "_" "scan.nii.gz" = true
  /\ run [Sim.t2w_01; "scan.nii.gz"; Sim.t2w_02] = run [Sim.t2w_01; "scan.nii.gz"]
  /\ snd (run [Sim.t2w_01; "scan.nii.gz"; Sim.t2w_02]) = Raise IndexError.
Proof.
  intros workdir run. split; [reflexivity |].
  split; [| reflexivity].
  exact (proj1 (register_stops_at_name_without_underscore Sim.tools_ok
                  (PathLib.of_str "/data/bids/sub-01") workdir (PathLib.of_str Sim.t1w_01)
                  [Sim.t2w_01] "scan.nii.gz" [Sim.t2w_02] (Sim.world_of Sim.input_tree) eq_refl)).
Defined.

(** X5. Mask derivation runs the FSL commands as one command line, once,
    whether it returns or raises.  It returns the path of the mask exactly
    when the file is there afterwards, [None] exactly when [exists] answers
    [False], and it raises [OSError] exactly when [exists] raises: the
    [except] arm prints and raises again. *)
Theorem preprocess_facemask_outcome
  (shell : string -> FS -> FS * outcome) (fmask_path : Path) (w : World) :
  let defacemask := PathLib.parent fmask_path // "afni_defacemask.nii.gz" in
  exists w' r,
    preprocess_facemask shell fmask_path w = (w', r)
    /\ shell_log w' = (shell_log w ++ [facemask_cmd fmask_path])%list
    /\ (r = Ok (Some defacemask) <-> Fs.exists_ defacemask (fs w') = true)
    /\ (r = Ok None <->
        Fs.exists_ defacemask (fs w') = false /\ stat_error w defacemask (fs w') = None)
    /\ (r = Raise OSError <->
        Fs.exists_ defacemask (fs w') = false /\ stat_error w defacemask (fs w') <> None).
Proof.
  intros defacemask.
  destruct (preprocess_facemask_cases shell fmask_path w) as [w' [H [F L]]].
  cbv zeta in H, F. fold defacemask in H. exists w'. eexists. split; [exact H |].
  split; [exact L |]. rewrite F.
  destruct (Fs.exists_ defacemask (fst (shell _ (fs w)))).
  - repeat split; try congruence; intros [? ?]; congruence.
  - destruct (stat_error w defacemask (fst (shell _ (fs w)))) as [text |].
    + repeat split; try congruence. intros [_ N]. discriminate N.
    + repeat split; try congruence. intros [_ N]. now contradiction N.
Qed.

(** The [except] arm at work: the working directory has a name of 256
    characters, which the file system refuses, and the engine raises after
    the FSL command line has run; no registration command follows. *)
Example preprocess_facemask_name_too_long :
  let workdir := PathLib.of_str "/out/bids_defaced/sub-01/anat" // Sim.long_name in
  let raw := workdir // "tmp.05.sh_t2a_thr.nii" in
  let w := Sim.world_with_limits Sim.input_tree in
  snd (preprocess_facemask Sim.tools_no_mask raw w) = Raise OSError
  /\ shell_log (fst (preprocess_facemask Sim.tools_no_mask raw w)) = [facemask_cmd raw]
  /\ snd (register_to_primary_scan Sim.tools_no_mask (PathLib.of_str "/data/bids/sub-01")
            workdir (PathLib.of_str Sim.t1w_01) [Sim.t2w_01] w) = Raise OSError
  /\ List.length (shell_log (fst (register_to_primary_scan Sim.tools_no_mask
                                    (PathLib.of_str "/data/bids/sub-01") workdir
                                    (PathLib.of_str Sim.t1w_01) [Sim.t2w_01] w))) = 1.
Proof. vm_compute. repeat split. Qed.

(** ** The loop over the primaries, again *)

(** X1. With the primary unset ([None] or the empty string), only the first
    of the other scans is processed: the scans after it change neither the
    result nor any effect of [run_afni_refacer]. *)
Theorem run_afni_refacer_ignores_later_scans
  (shell : string -> FS -> FS * outcome) (primary_t1 : option string)
  (other : string) (rest : list string)
  (subj_input_dir : Path) (sess_id : string) (output_dir : Path) (mode : string) (w : World) :
  Py.truthy_opt primary_t1 = false ->
  run_afni_refacer shell primary_t1 (other :: rest) subj_input_dir sess_id output_dir mode w
  = run_afni_refacer shell primary_t1 [other] subj_input_dir sess_id output_dir mode w.
Proof.
  intros H. unfold run_afni_refacer.
  assert (E : match primary_t1 with
              | Some p => if Py.truthy p then ([p], other :: rest) else (other :: rest, [])
              | None => (other :: rest, [])
              end = (other :: rest, [])).
  { destruct primary_t1 as [p |]; simpl in H; [now rewrite H | reflexivity]. }
  assert (E1 : match primary_t1 with
               | Some p => if Py.truthy p then ([p], [other]) else ([other], [])
               | None => ([other], [])
               end = ([other], [])).
  { destruct primary_t1 as [p |]; simpl in H; [now rewrite H | reflexivity]. }
  rewrite E, E1.
  rewrite !for_return_first by (intros; apply reface_one_returns). reflexivity.
Qed.

Lemma run_afni_refacer_ignores_later_scans_witness :
  Py.truthy_opt (Some "") = false
  /\ run_afni_refacer Sim.tools_ok (Some "") [Sim.t2w_02; Sim.pdw_02]
       (PathLib.of_str "/data/bids/sub-02") "ses-1" Sim.bids_defaced_outdir "standard"
       (Sim.world_of Sim.input_tree)
     = run_afni_refacer Sim.tools_ok (Some "") [Sim.t2w_02]
         (PathLib.of_str "/data/bids/sub-02") "ses-1" Sim.bids_defaced_outdir "standard"
         (Sim.world_of Sim.input_tree).
Proof.
  split; [reflexivity |].
  exact (run_afni_refacer_ignores_later_scans Sim.tools_ok (Some "") Sim.t2w_02 [Sim.pdw_02]
           (PathLib.of_str "/data/bids/sub-02") "ses-1" Sim.bids_defaced_outdir "standard"
           (Sim.world_of Sim.input_tree) eq_refl).
Defined.

(** X3. When the primary is set and no entry named [*work_refacer*] is in
    its output subdirectory once the defacing command has run,
    [run_afni_refacer] returns the prefix of the primary (its name up to the
    first dot) as the failure record, and the defacing command is the only
    command it has run: no cleanup, no mask derivation, no registration. *)
Theorem run_afni_refacer_without_workdir
  (shell : string -> FS -> FS * outcome) (p : string) (others : list string)
  (subj_input_dir : Path) (sess_id : string) (output_dir : Path) (mode acq : string)
  (w : World) (tree : FS) :
  let scan := PathLib.of_str p in
  let dir := output_dir // PathLib.name subj_input_dir // sess_id // "anat" // acq in
  let prefix := hd "" (Py.split "." (PathLib.name scan)) in
  let cmd := refacer_cmd (Some p) (dir // prefix) mode in
  Py.truthy p = true ->
  acq_of_entities (Py.split "_" (PathLib.name scan)) = Some acq ->
  (if Fs.exists_ dir (fs w) then Ok (fs w) else Fs.mkdir_p dir (fs w)) = Ok tree ->
  Fs.glob dir (fun n => Py.contains n "work_refacer") (fst (shell cmd tree)) = [] ->
  exists w',
    run_afni_refacer shell (Some p) others subj_input_dir sess_id output_dir mode w
    = (w', Ok (Some prefix))
    /\ shell_log w' = (shell_log w ++ [cmd])%list
    /\ fs w' = fst (shell cmd tree).
Proof.
  intros scan dir prefix cmd Hp Hacq Hdir Hglob.
  rewrite run_afni_refacer_set_primary by exact Hp.
  eapply reface_one_without_workdir; eassumption.
Qed.

Lemma run_afni_refacer_without_workdir_witness :
  let r := run_afni_refacer (fun _ tree => (tree, Sim.failed)) (Some Sim.t1w_01) [Sim.t2w_01]
             (PathLib.of_str "/data/bids/sub-01") "" Sim.bids_defaced_outdir "standard"
             (Sim.world_of Sim.input_tree) in
  Py.truthy Sim.t1w_01 = true
  /\ snd r = Ok (Some "sub-01_acq-mprage_T1w")
  /\ shell_log (fst r)
     = ["@afni_refacer_run -input /data/bids/sub-01/anat/sub-01_acq-mprage_T1w.nii.gz -mode_deface -no_clean -prefix /out/bids_defaced/sub-01/anat/sub-01_acq-mprage_T1w"].
Proof.
  split; [reflexivity |].
  edestruct (run_afni_refacer_without_workdir (fun _ tree => (tree, Sim.failed)) Sim.t1w_01
               [Sim.t2w_01] (PathLib.of_str "/data/bids/sub-01") "" Sim.bids_defaced_outdir
               "standard" "" (Sim.world_of Sim.input_tree)) as [w' [H1 [H2 _]]].
  - reflexivity.
  - reflexivity.
  - vm_compute. reflexivity.
  - reflexivity.
  - cbv zeta. rewrite H1. simpl fst. simpl snd. split; [reflexivity |].
    rewrite H2. reflexivity.
Defined.

Lemma register_to_primary_scan_log_witness :
  let workdir := Sim.bids_defaced_outdir // "sub-01" // "anat" // "workdir_sub-01_T1w" in
  let w := Sim.world_of Sim.input_tree in
  let r := register_to_primary_scan Sim.tools_ok (PathLib.of_str "/data/bids/sub-01") workdir
             (PathLib.of_str Sim.t1w_01) [Sim.t2w_01; "sub-01_ses-1_PDw.nii.gz"] w in
  r = (fst r, Ok tt) /\ List.length (shell_log (fst r)) = 3.
Proof.
  intros workdir w r.
  assert (E : r = (fst r, Ok tt)) by (vm_compute; reflexivity).
  split; [exact E |].
  rewrite (register_to_primary_scan_log Sim.tools_ok (PathLib.of_str "/data/bids/sub-01") workdir
             (PathLib.of_str Sim.t1w_01) [Sim.t2w_01; "sub-01_ses-1_PDw.nii.gz"] w (fst r) E).
  rewrite length_app. reflexivity.
Defined.

(** ** The orchestrator and the driver *)

Lemma getitem_absent {V} (d : list (string * V)) (k : string) (w : World) :
  ~ In k (map fst d) -> getitem d k w = (w, Raise KeyError).
Proof.
  induction d as [| [k' v] d IH]; simpl; [reflexivity |].
  intros H. destruct (String.eqb_spec k' k) as [-> | N]; [tauto |].
  apply IH. tauto.
Qed.

Lemma bind_ok {A B} (m : M A) (k : A -> M B) (w w' : World) (b : B) :
  bind m k w = (w', Ok b) -> exists a w1, m w = (w1, Ok a) /\ k a w1 = (w', Ok b).
Proof.
  unfold bind. destruct (m w) as [w1 [a | e]]; [eauto | discriminate].
Qed.

(** X10. For a subject that is not a key of the mapping, [deface_primary_scan]
    (without the module loading of [nih_hpc]) raises [KeyError] once the log
    directory is there: no command has been run and the reorganizer has not
    been entered. *)
Theorem deface_primary_scan_unknown_subject
  (shell : string -> FS -> FS * outcome) (gzip_bytes : string -> string)
  (input_bids_dir subj_input_dir : Path) (sess_dir : option Path) (mapping_dict : mapping)
  (output_dir : Path) (mode : string) (no_clean : bool) (w : World) (tree : FS) :
  let logs := PathLib.parent (output_dir // "logs" // "defacing_pipeline.log") in
  ~ In (PathLib.name subj_input_dir) (map fst mapping_dict) ->
  (if Fs.exists_ logs (fs w) then Ok (fs w) else Fs.mkdir_p logs (fs w)) = Ok tree ->
  exists w',
    deface_primary_scan shell gzip_bytes input_bids_dir subj_input_dir sess_dir mapping_dict
                        output_dir mode no_clean false w = (w', Raise KeyError)
    /\ fs w' = tree
    /\ shell_log w' = shell_log w
    /\ reorganized w' = reorganized w.
Proof.
  intros logs Habs Hlogs. unfold deface_primary_scan. fold logs.
  unfold bind at 1, get_fs at 1.
  assert (D : exists w1,
             (if negb (Fs.exists_ logs (fs w)) then on_fs (Fs.mkdir_p logs) else ret tt) w
             = (w1, Ok tt)
             /\ fs w1 = tree /\ shell_log w1 = shell_log w /\ reorganized w1 = reorganized w).
  { destruct (Fs.exists_ logs (fs w)); simpl.
    - injection Hlogs as <-. now exists w.
    - unfold on_fs. rewrite Hlogs. eexists. repeat split. }
  destruct D as [w1 [D [F [L R]]]].
  unfold bind at 1. rewrite D. unfold bind at 1, ret at 1. unfold bind at 1.
  exists w1.
  destruct (negb (Py.truthy _)); unfold flat_scans, session_scans, bind;
    rewrite (getitem_absent mapping_dict _ w1 Habs); auto.
Qed.

Lemma deface_primary_scan_unknown_subject_witness :
  ~ In (PathLib.name (PathLib.of_str "/data/bids/sub-09")) (map fst Sim.mapping_dict)
  /\ exists w',
       deface_primary_scan Sim.tools_ok Sim.gz Sim.input_dir (PathLib.of_str "/data/bids/sub-09")
         None Sim.mapping_dict Sim.bids_defaced_outdir "standard" false false
         (Sim.world_of Sim.input_tree) = (w', Raise KeyError)
       /\ shell_log w' = [].
Proof.
  assert (A : ~ In (PathLib.name (PathLib.of_str "/data/bids/sub-09"))
                (map fst Sim.mapping_dict)).
  { vm_compute. intros [H | [H | []]]; discriminate. }
  split; [exact A |].
  edestruct (deface_primary_scan_unknown_subject Sim.tools_ok Sim.gz Sim.input_dir
               (PathLib.of_str "/data/bids/sub-09") None Sim.mapping_dict
               Sim.bids_defaced_outdir "standard" false (Sim.world_of Sim.input_tree))
    as [w' [H1 [_ [H2 _]]]].
  - exact A.
  - vm_compute. reflexivity.
  - exists w'. split; [exact H1 | exact H2].
Defined.

Lemma getitem_any {V} (d : list (string * V)) (k : string) (w w0 : World) :
  getitem d k w = (w, snd (getitem d k w0)).
Proof.
  induction d as [| [k' v] d IH]; simpl; [reflexivity |].
  now destruct (String.eqb k' k).
Qed.

Lemma unit_lookup_any (mapping_dict : mapping) (subj_id sess_id : string) (w w0 : World) :
  let lookup := if negb (Py.truthy sess_id) then flat_scans mapping_dict subj_id
                else session_scans mapping_dict subj_id sess_id in
  lookup w = (w, snd (lookup w0)).
Proof.
  destruct (negb (Py.truthy sess_id)); cbv zeta; unfold flat_scans, session_scans, bind;
    rewrite (getitem_any mapping_dict subj_id w w0);
    destruct (getitem mapping_dict subj_id w0) as [w1 [[u | l] | e]]; cbn [snd];
      try reflexivity.
  - now destruct (String.eqb sess_id "primary_t1" || String.eqb sess_id "others").
  - apply getitem_any.
Qed.

(** X11. Whenever [deface_primary_scan] returns, it returns a list of
    exactly one item, the value [run_afni_refacer] returned for the unit:
    for the primary and the other scans that the mapping gives for the
    unit, run after the module loading of [nih_hpc], if any.  A unit that
    was defaced adds an item to the driver's list as well. *)
Theorem deface_primary_scan_returns_refacer_value
  (shell : string -> FS -> FS * outcome) (gzip_bytes : string -> string)
  (input_bids_dir subj_input_dir : Path) (sess_dir : option Path) (mapping_dict : mapping)
  (output_dir : Path) (mode : string) (no_clean nih_hpc : bool) (w w' : World)
  (l : list (option string)) :
  let subj_id := PathLib.name subj_input_dir in
  let sess_id := match sess_dir with Some d => PathLib.name d | None => "" end in
  let lookup := if negb (Py.truthy sess_id) then flat_scans mapping_dict subj_id
                else session_scans mapping_dict subj_id sess_id in
  deface_primary_scan shell gzip_bytes input_bids_dir subj_input_dir sess_dir mapping_dict
                      output_dir mode no_clean nih_hpc w = (w', Ok l) ->
  exists u w0 w1 v,
    snd (lookup w) = Ok u
    /\ run_afni_refacer shell (fst (unit_scans u)) (snd (unit_scans u)) subj_input_dir sess_id
                        output_dir mode w0 = (w1, Ok v)
    /\ shell_log w0
       = (shell_log w ++ if nih_hpc then ["module load afni ; module load fsl"] else [])%list
    /\ l = [v].
Proof.
  intros subj_id sess_id lookup. unfold deface_primary_scan. intros H.
  apply bind_ok in H. destruct H as (tree & wA & E1 & H). injection E1 as <- _.
  apply bind_ok in H. destruct H as (? & wB & E2 & H).
  assert (L2 : shell_log wB = shell_log w).
  { destruct (negb (Fs.exists_ _ tree)).
    - pose proof (on_fs_log (Fs.mkdir_p (PathLib.parent (output_dir // "logs"
                                           // "defacing_pipeline.log"))) w) as L.
      now rewrite E2 in L.
    - now injection E2 as <-. }
  apply bind_ok in H. destruct H as (? & wC & E3 & H).
  assert (L3 : shell_log wC
               = (shell_log wB
                  ++ if nih_hpc then ["module load afni ; module load fsl"] else [])%list).
  { destruct nih_hpc.
    - unfold bind, utils_run_command in E3.
      destruct (shell _ (fs wB)) as [t o]. cbn [snd] in E3.
      destruct (Py.truthy (err o)); unfold say in E3; injection E3 as <-; reflexivity.
    - injection E3 as <-. now rewrite app_nil_r. }
  apply bind_ok in H. destruct H as (u & wD & E4 & H).
  fold subj_id in E4. fold sess_id in E4. fold lookup in E4.
  pose proof (unit_lookup_any mapping_dict subj_id sess_id wC w) as P.
  cbv zeta in P. fold lookup in P. rewrite P in E4. injection E4 as <- E4.
  unfold unit_scans in H. cbv beta iota in H.
  apply bind_ok in H. destruct H as (? & wE & E5 & H).
  assert (L5 : shell_log wE = shell_log wC) by (unfold say in E5; now injection E5 as <-).
  apply bind_ok in H. destruct H as (v & wF & E6 & H).
  do 2 (apply bind_ok in H; destruct H as (? & ? & _ & H)).
  injection H as _ <-.
  exists u, wE, wF, v. split; [now symmetry |]. split; [exact E6 |].
  split; [now rewrite L5, L3, L2 | reflexivity].
Qed.

Lemma deface_primary_scan_returns_refacer_value_witness :
  let r := deface_primary_scan Sim.tools_ok Sim.gz Sim.input_dir
             (PathLib.of_str "/data/bids/sub-01") None Sim.mapping_dict Sim.bids_defaced_outdir
             "standard" false false (Sim.world_of Sim.input_tree) in
  r = (fst r, Ok [Some ""])
  /\ exists w0 w1,
       run_afni_refacer Sim.tools_ok (Some Sim.t1w_01) [Sim.t2w_01]
                        (PathLib.of_str "/data/bids/sub-01") "" Sim.bids_defaced_outdir
                        "standard" w0 = (w1, Ok (Some ""))
       /\ shell_log w0 = [].
Proof.
  intros r.
  assert (E : r = (fst r, Ok [Some ""])) by (vm_compute; reflexivity).
  split; [exact E |].
  destruct (deface_primary_scan_returns_refacer_value Sim.tools_ok Sim.gz Sim.input_dir
              (PathLib.of_str "/data/bids/sub-01") None Sim.mapping_dict
              Sim.bids_defaced_outdir "standard" false false (Sim.world_of Sim.input_tree)
              (fst r) [Some ""] E) as (u & w0 & w1 & v & U & R & L & V).
  injection V as <-. vm_compute in U. injection U as <-.
  exists w0, w1. split; [exact R | exact L].
Defined.

Lemma main_runs_no_command_witness :
  let a := mkArgs Sim.input_dir Sim.output None None false true in
  arg_swarm a = false
  /\ shell_log (fst (main Sim.tools_ok Sim.gz "dsst_defacing_wf.py" Sim.crawl a
                      (Sim.world_of Sim.input_tree))) = [].
Proof.
  split; [reflexivity |].
  exact (main_runs_no_command Sim.tools_ok Sim.gz "dsst_defacing_wf.py" Sim.crawl
           (mkArgs Sim.input_dir Sim.output None None false true) (Sim.world_of Sim.input_tree)
           eq_refl).
Defined.

(** X13. A session given without a subject is refused before anything else
    happens, with or without [--swarm]: the driver raises [ValueError], the
    mapping is not computed, the tree is untouched and no command is run. *)
Theorem main_rejects_session_without_subject
  (shell : string -> FS -> FS * outcome) (gzip_bytes : string -> string)
  (script_path : string) (crawl : Path -> Path -> FS -> FS * result mapping)
  (cmdline : args) (w : World) :
  Py.truthy_opt (arg_subj_id cmdline) = false ->
  Py.truthy_opt (arg_sess_id cmdline) = true ->
  exists w',
    main shell gzip_bytes script_path crawl cmdline w = (w', Raise ValueError)
    /\ fs w' = fs w
    /\ shell_log w' = shell_log w.
Proof.
  intros Hs Hd. unfold main, bind at 1, get_args. rewrite Hs, Hd. simpl.
  unfold bind, say, raise. eexists. repeat split.
Qed.

Lemma main_rejects_session_without_subject_witness :
  let a := mkArgs Sim.input_dir Sim.output None (Some "ses-1") true false in
  Py.truthy_opt (arg_subj_id a) = false
  /\ Py.truthy_opt (arg_sess_id a) = true
  /\ exists w',
       main Sim.tools_ok Sim.gz "dsst_defacing_wf.py" Sim.crawl a (Sim.world_of Sim.input_tree)
       = (w', Raise ValueError)
       /\ fs w' = Sim.input_tree.
Proof.
  split; [reflexivity |]. split; [reflexivity |].
  destruct (main_rejects_session_without_subject Sim.tools_ok Sim.gz "dsst_defacing_wf.py"
              Sim.crawl (mkArgs Sim.input_dir Sim.output None (Some "ses-1") true false)
              (Sim.world_of Sim.input_tree) eq_refl eq_refl) as [w' [H1 [H2 _]]].
  exists w'. split; [exact H1 | exact H2].
Defined.

Lemma getitem_cases {V} (d : list (string * V)) (k : string) (w : World) :
  (exists v, getitem d k w = (w, Ok v)) \/ getitem d k w = (w, Raise KeyError).
Proof.
  induction d as [| [k' v] d IH]; simpl; [now right |].
  destruct (String.eqb k' k); [left; now exists v | exact IH].
Qed.

Lemma all_units_key_error (mapping_dict : mapping) (subj_dirs : list Path) (w : World) :
  Exists (fun d => ~ In (PathLib.name d) (map fst mapping_dict)) subj_dirs ->
  all_units mapping_dict subj_dirs w = (w, Raise KeyError).
Proof.
  induction subj_dirs as [| d l IH]; intros H; [inversion H |].
  simpl. unfold bind at 1. unfold get_sess_dirs at 1. unfold bind at 1.
  destruct (getitem_cases mapping_dict (PathLib.name d) w) as [[v G] | G]; rewrite G;
    [| reflexivity].
  unfold ret at 1. unfold bind at 1.
  inversion H as [? ? Hd | ? ? Hl]; subst.
  - rewrite (getitem_absent _ _ w Hd) in G. discriminate.
  - now rewrite (IH Hl).
Qed.

(** X14. When no subject is given, every [sub-*] entry of the input
    directory must be a key of the mapping: one entry that is not makes the
    resolution of the units raise [KeyError], and no unit is returned. *)
Theorem subj_sess_list_unmapped_subject (a : args) (mapping_dict : mapping) (w : World) :
  Py.truthy_opt (arg_subj_id a) = false ->
  Exists (fun d => ~ In (PathLib.name d) (map fst mapping_dict))
         (Fs.glob (arg_input a) (fun n => Py.startswith n "sub-") (fs w)) ->
  subj_sess_list a mapping_dict w = (w, Raise KeyError).
Proof.
  intros Hs H. unfold subj_sess_list. rewrite Hs. simpl.
  unfold bind, get_fs. now apply all_units_key_error.
Qed.

Lemma subj_sess_list_unmapped_subject_witness :
  let a := mkArgs Sim.input_dir Sim.output None None false false in
  let m := [("sub-01", Flat (mkScans (Some Sim.t1w_01) [Sim.t2w_01]))] in
  Py.truthy_opt (arg_subj_id a) = false
  /\ subj_sess_list a m (Sim.world_of Sim.input_tree)
     = (Sim.world_of Sim.input_tree, Raise KeyError).
Proof.
  intros a m. split; [reflexivity |].
  apply (subj_sess_list_unmapped_subject a m (Sim.world_of Sim.input_tree) eq_refl).
  vm_compute. apply Exists_cons_tl. apply Exists_cons_hd.
  intros [H | []]. discriminate.
Defined.

(** ** Compression, again *)

Lemma lookup_put_other (p q : Path) (c : string) (tree : FS) :
  q <> p -> Fs.lookup q (Fs.put p c tree) = Fs.lookup q tree.
Proof.
  intros N. assert (E : PathLib.eqb p q = false).
  { destruct (PathLib.eqb p q) eqn:E; [| reflexivity].
    apply path_eqb_eq in E. congruence. }
  unfold Fs.lookup. induction tree as [| e tree IH]; simpl.
  - now rewrite E.
  - destruct (PathLib.eqb (fst e) p) eqn:Ep; simpl.
    + apply path_eqb_eq in Ep. rewrite Ep, E. reflexivity.
    + destruct (PathLib.eqb (fst e) q); [reflexivity | exact IH].
Qed.

(** X17. When the destination is not there, its directory is, and the input
    is a regular file, [compress_to_gz] returns with the destination holding
    the compressed bytes of the input; no other path changes and no command
    is run. *)
Theorem compress_to_gz_writes (gz : string -> string) (i o : Path) (c : string) (w : World) :
  Fs.exists_ o (fs w) = false ->
  Fs.lookup i (fs w) = Some (File c) ->
  parts o <> [] ->
  Fs.parent_ready o (fs w) = true ->
  exists w',
    compress_to_gz gz i o w = (w', Ok tt)
    /\ Fs.lookup o (fs w') = Some (File (gz c))
    /\ (forall q, q <> o -> Fs.lookup q (fs w') = Fs.lookup q (fs w))
    /\ shell_log w' = shell_log w.
Proof.
  intros He Hi Hp Hr.
  unfold compress_to_gz, bind, get_fs, lift, on_fs, Fs.read_file, Fs.write_file.
  rewrite He, Hi. simpl. rewrite Hr. simpl.
  destruct (parts o) as [| x l] eqn:P; [congruence |].
  unfold Fs.exists_ in He. destruct (Fs.lookup o (fs w)); [discriminate |].
  eexists. split; [reflexivity |]. simpl.
  split; [apply lookup_put |]. split; [| reflexivity].
  intros q N. now apply lookup_put_other.
Qed.

Lemma compress_to_gz_writes_witness :
  let i := PathLib.of_str "/out/anat/workdir_sub-01_T1w/tmp.99.result.deface.nii" in
  let o := PathLib.of_str "/out/anat/sub-01_T1w.nii.gz" in
  let w := Sim.world_of [(PathLib.of_str "/out/anat", Dir);
                         (PathLib.of_str "/out/anat/workdir_sub-01_T1w", Dir);
                         (i, File "volume")] in
  Fs.exists_ o (fs w) = false
  /\ Fs.lookup i (fs w) = Some (File "volume")
  /\ exists w', compress_to_gz Sim.gz i o w = (w', Ok tt)
                /\ Fs.lookup o (fs w') = Some (File "gz:volume").
Proof.
  intros i o w. split; [reflexivity |]. split; [reflexivity |].
  destruct (compress_to_gz_writes Sim.gz i o "volume" w) as [w' [H1 [H2 _]]];
    try reflexivity; [discriminate |].
  exists w'. split; [exact H1 | exact H2].
Defined.

(** X18. When the destination is not there and the input is not a regular
    file (it is missing, or a directory), [compress_to_gz] raises and leaves
    the world as it was: no empty destination is left behind. *)
Theorem compress_to_gz_missing_input (gz : string -> string) (i o : Path) (w : World) :
  Fs.exists_ o (fs w) = false ->
  Fs.lookup i (fs w) = None \/ Fs.lookup i (fs w) = Some Dir ->
  compress_to_gz gz i o w = (w, Raise OSError).
Proof.
  intros He Hi. unfold compress_to_gz, bind, get_fs, lift, Fs.read_file.
  rewrite He. simpl. destruct Hi as [Hi | Hi]; rewrite Hi; reflexivity.
Qed.

Lemma compress_to_gz_missing_input_witness :
  let i := PathLib.of_str "/out/anat/tmp.99.result.deface.nii" in
  let o := PathLib.of_str "/out/anat/sub-01_T1w.nii.gz" in
  let w := Sim.world_of [(PathLib.of_str "/out/anat", Dir)] in
  Fs.exists_ o (fs w) = false
  /\ compress_to_gz Sim.gz i o w = (w, Raise OSError)
  /\ Fs.exists_ o (fs (fst (compress_to_gz Sim.gz i o w))) = false.
Proof.
  intros i o w. split; [reflexivity |].
  assert (E : compress_to_gz Sim.gz i o w = (w, Raise OSError)).
  { apply compress_to_gz_missing_input; [reflexivity | left; reflexivity]. }
  split; [exact E |]. rewrite E. reflexivity.
Defined.

(** ** Names of the outputs *)

Lemma str_append_inj (s a b : string) : s ++ a = s ++ b -> a = b.
Proof. induction s as [| x s IH]; simpl; [auto | intros [= H]; auto]. Qed.

(** X24. The four intermediate files of a secondary scan have four different
    names: the transform, the registered volume, the mask and the defaced
    volume cannot overwrite one another. *)
Theorem get_intermediate_filenames_distinct (outdir : Path) (prefix : string) :
  let '(mat, reg_out, mask, defaced_out) := get_intermediate_filenames outdir prefix in
  NoDup [mat; reg_out; mask; defaced_out].
Proof.
  unfold get_intermediate_filenames.
  repeat constructor; simpl; intros H;
    repeat (destruct H as [H | H]; [apply str_append_inj in H; discriminate |]);
    exact H.
Qed.

(** X19. The sidecar looked up for a registered scan [<stem>_defaced.nii.gz]
    is the one of the scan [<stem>.nii.gz]: [copy_over_sidecar] does the same
    for both names, whatever the stem is. *)
Theorem copy_over_sidecar_defaced_name
  (scan defaced input_anat_dir output_anat_dir : Path) (stem : string) (w : World) :
  PathLib.name scan = stem ++ ".nii.gz" ->
  PathLib.name defaced = stem ++ "_defaced.nii.gz" ->
  copy_over_sidecar defaced input_anat_dir output_anat_dir w
  = copy_over_sidecar scan input_anat_dir output_anat_dir w.
Proof.
  intros Hs Hd. unfold copy_over_sidecar. rewrite Hs, Hd.
  rewrite (split2_app "_" "." "_") by reflexivity.
  rewrite (split2_app "_" "." ".") by reflexivity.
  rewrite !filter_app. simpl. reflexivity.
Qed.

Lemma copy_over_sidecar_defaced_name_witness :
  let scan := PathLib.of_str "/data/bids/sub-01/anat/sub-01_T2w.nii.gz" in
  let defaced := PathLib.of_str "/out/anat/workdir_sub-01_T1w/sub-01_T2w/sub-01_T2w_defaced.nii.gz" in
  let i := PathLib.of_str "/data/bids/sub-01/anat" in
  let o := PathLib.of_str "/out" in
  PathLib.name scan = "sub-01_T2w" ++ ".nii.gz"
  /\ PathLib.name defaced = "sub-01_T2w" ++ "_defaced.nii.gz"
  /\ copy_over_sidecar defaced i o (Sim.world_of Sim.input_tree)
     = copy_over_sidecar scan i o (Sim.world_of Sim.input_tree)
  /\ Fs.lookup (o // "sub-01_T2w.json")
               (fs (fst (copy_over_sidecar scan i o (Sim.world_of Sim.input_tree))))
     = Some (File "{}").
Proof.
  intros scan defaced i o. split; [reflexivity |]. split; [reflexivity |].
  split; [| vm_compute; reflexivity].
  apply (copy_over_sidecar_defaced_name scan defaced i o "sub-01_T2w"); reflexivity.
Defined.

Lemma str_length_app (a b : string) :
  String.length (a ++ b) = String.length a + String.length b.
Proof. induction a as [| x a IH]; simpl; congruence. Qed.

Lemma substring_all (b : string) : substring 0 (String.length b) b = b.
Proof. induction b as [| x b IH]; simpl; congruence. Qed.

Lemma substring_skip (a b : string) (n : nat) :
  substring (String.length a) n (a ++ b) = substring 0 n b.
Proof. induction a as [| x a IH]; simpl; [reflexivity | exact IH]. Qed.

Lemma endswith_app (a b : string) : Py.endswith (a ++ b) b = true.
Proof.
  unfold Py.endswith. rewrite str_length_app.
  replace (String.length a + String.length b - String.length b) with (String.length a) by lia.
  rewrite substring_skip, substring_all, String.eqb_refl, andb_true_r.
  apply Nat.leb_le. lia.
Qed.

Lemma on_fs_ok (op : FS -> result FS) (w w' : World) :
  on_fs op w = (w', Ok tt) -> op (fs w) = Ok (fs w').
Proof.
  unfold on_fs. destruct (op (fs w)) as [t | e]; [| discriminate].
  intros [= <-]. reflexivity.
Qed.

Lemma put_keeps (p q : Path) (c : string) (tree : FS) :
  Fs.exists_ q tree = true -> Fs.exists_ q (Fs.put p c tree) = true.
Proof.
  unfold Fs.exists_. intros H.
  destruct (PathLib.eqb q p) eqn:E.
  - apply path_eqb_eq in E. subst. now rewrite lookup_put.
  - rewrite lookup_put_other; [exact H |].
    intros ->. now rewrite path_eqb_refl in E.
Qed.

Lemma write_file_keeps (p q : Path) (c : string) (tree tree' : FS) :
  Fs.write_file p c tree = Ok tree' -> Fs.exists_ q tree = true -> Fs.exists_ q tree' = true.
Proof.
  unfold Fs.write_file. destruct (parts p); [discriminate |].
  destruct (negb (Fs.parent_ready p tree)); [discriminate |].
  destruct (Fs.lookup p tree) as [[| c' | t] |]; try discriminate;
    intros [= <-]; apply put_keeps.
Qed.

Lemma copy2_keeps (src dst q : Path) (tree tree' : FS) :
  Fs.copy2 src dst tree = Ok tree' -> Fs.exists_ q tree = true -> Fs.exists_ q tree' = true.
Proof.
  unfold Fs.copy2. destruct (Fs.lookup src tree) as [[| c | t] |]; try discriminate.
  destruct (PathLib.eqb src _); [discriminate |]. apply write_file_keeps.
Qed.

Lemma copy2_creates (src dst : Path) (tree tree' : FS) :
  Fs.copy2 src dst tree = Ok tree' -> Fs.exists_ dst tree' = true.
Proof.
  intros H. pose proof H as K. unfold Fs.copy2 in H.
  destruct (Fs.lookup src tree) as [[| c | t] |]; try discriminate.
  destruct (Fs.is_dir dst tree) eqn:D.
  - apply (copy2_keeps _ _ _ _ _ K). unfold Fs.is_dir in D. unfold Fs.exists_.
    destruct (Fs.lookup dst tree); [reflexivity | discriminate].
  - destruct (PathLib.eqb src dst); [discriminate |]. eapply write_file_exists, H.
Qed.

(** X20. The defaced volume of a secondary scan, which the registration
    names [<stem>_defaced.nii.gz], is brought into the [anat] directory
    under the name [<stem>.nii.gz]: once [reorganize_volume] has
    returned for such a file, that entry is there. *)
Theorem reorganize_volume_defaced_secondary
  (gz : string -> string) (input_bids_dir : Path) (primary_scan : option string)
  (bids_defaced_outdir anat_dir nii_filepath : Path) (stem : string) (w w' : World) :
  PathLib.name nii_filepath = stem ++ "_defaced.nii.gz" ->
  Py.startswith (stem ++ "_defaced.nii.gz") "tmp.99.result" = false ->
  reorganize_volume gz input_bids_dir primary_scan bids_defaced_outdir anat_dir nii_filepath w
  = (w', Ok tt) ->
  Fs.exists_ (anat_dir // (stem ++ ".nii.gz")) (fs w') = true.
Proof.
  intros Hn Ht. unfold reorganize_volume. rewrite Hn, Ht, endswith_app.
  rewrite split_app. change (Py.split "_" "defaced.nii.gz") with ["defaced.nii.gz"].
  rewrite removelast_last, (join_split "_" stem).
  intros H.
  apply bind_ok in H. destruct H as ([] & w1 & C & H).
  apply bind_ok in H. destruct H as (rel & w2 & L & H).
  unfold lift in L. injection L as <- _.
  unfold copy_over_sidecar in H.
  apply on_fs_ok in C, H.
  eapply copy2_keeps; [exact H |]. eapply copy2_creates, C.
Qed.

Lemma reorganize_volume_defaced_secondary_witness :
  let anat := Sim.bids_defaced_outdir // "sub-01" // "anat" in
  let nii := anat // "workdir_sub-01_T1w" // "sub-01_T2w" // "sub-01_T2w_defaced.nii.gz" in
  let w := Sim.world_of (Sim.input_tree
                         ++ [(Sim.bids_defaced_outdir, Dir);
                             (Sim.bids_defaced_outdir // "sub-01", Dir); (anat, Dir);
                             (nii, File "defaced")])%list in
  let r := reorganize_volume Sim.gz Sim.input_dir (Some Sim.t1w_01) Sim.bids_defaced_outdir
             anat nii w in
  PathLib.name nii = "sub-01_T2w" ++ "_defaced.nii.gz"
  /\ r = (fst r, Ok tt)
  /\ Fs.exists_ (anat // ("sub-01_T2w" ++ ".nii.gz")) (fs (fst r)) = true.
Proof.
  intros anat nii w r. split; [reflexivity |].
  assert (E : r = (fst r, Ok tt)) by (vm_compute; reflexivity).
  split; [exact E |].
  exact (reorganize_volume_defaced_secondary Sim.gz Sim.input_dir (Some Sim.t1w_01)
           Sim.bids_defaced_outdir anat nii "sub-01_T2w" w (fst r) eq_refl eq_refl E).
Defined.

(** ** QC staging (deface.py, lines 60-76) *)

Lemma lookup_app_l (q : Path) (n : node) (t t2 : FS) :
  Fs.lookup q t = Some n -> Fs.lookup q (t ++ t2)%list = Some n.
Proof.
  unfold Fs.lookup. rewrite find_app.
  destruct (find _ t); [auto | discriminate].
Qed.

Lemma mkdir_p_present (p : Path) (tree : FS) :
  Forall (fun q => Fs.lookup q tree = Some Dir) (Fs.lineage p) ->
  Fs.mkdir_p p tree = Ok tree.
Proof.
  intros H. unfold Fs.mkdir_p. rewrite Forall_forall in H.
  assert (E : existsb (fun q => Fs.in_the_way q tree) (Fs.lineage p) = false).
  { destruct (existsb _ (Fs.lineage p)) eqn:X; [| reflexivity].
    apply existsb_exists in X. destruct X as [q [Hq X]].
    unfold Fs.in_the_way in X. now rewrite (H q Hq) in X. }
  rewrite E.
  assert (F : filter (fun q => negb (Fs.exists_ q tree)) (Fs.lineage p) = []).
  { clear E. revert H. generalize (Fs.lineage p). intros l.
    induction l as [| q l IH]; intros H; [reflexivity |]. simpl.
    unfold Fs.exists_ at 1. rewrite (H q) by (now left). simpl.
    apply IH. intros x Hx. apply H. now right. }
  rewrite F. simpl. now rewrite app_nil_r.
Qed.

Lemma symlink_to_made (p target : Path) (t t' : FS) :
  Fs.symlink_to p target t = Ok t' ->
  t' = (t ++ [(p, Link target)])%list /\ Fs.is_symlink p t' = true.
Proof.
  unfold Fs.symlink_to. destruct (Fs.exists_ p t) eqn:E; [discriminate |].
  destruct (negb (Fs.parent_ready p t)); [discriminate |]. simpl.
  intros [= <-]. split; [reflexivity |].
  unfold Fs.is_symlink, Fs.lookup. rewrite find_app.
  unfold Fs.exists_, Fs.lookup in E.
  destruct (find _ t); [discriminate |]. simpl. now rewrite path_eqb_refl.
Qed.

Lemma is_symlink_app (p : Path) (t t2 : FS) :
  Fs.is_symlink p t = true -> Fs.is_symlink p (t ++ t2)%list = true.
Proof.
  unfold Fs.is_symlink. destruct (Fs.lookup p t) as [[| c | x] |] eqn:L; try discriminate.
  intros _. now rewrite (lookup_app_l _ _ _ t2 L).
Qed.

Lemma rglob_app (d : Path) (m : string -> bool) (t t2 : FS) :
  Fs.rglob d m (t ++ t2)%list = (Fs.rglob d m t ++ Fs.rglob d m t2)%list.
Proof. unfold Fs.rglob. now rewrite filter_app, map_app, filter_app. Qed.

(** A tree in which the links of a scan are in place: its QC directory is
    there, both links are links, and the input tree has a file of that
    name.  In such a tree [vqcdeface_link] only prints. *)
Lemma vqcdeface_link_settled (bids_input_dir defacing_qc_dir defaced_img : Path) (w : World) :
  let dir := defacing_qc_dir
             // Py.join "/" (Py.split "_" (hd "" (Py.split "." (PathLib.name defaced_img)))) in
  Forall (fun q => Fs.lookup q (fs w) = Some Dir) (Fs.lineage dir) ->
  Fs.is_symlink (dir // "defaced.nii.gz") (fs w) = true ->
  Fs.is_symlink (dir // "orig.nii.gz") (fs w) = true ->
  Fs.rglob bids_input_dir (String.eqb (PathLib.name defaced_img)) (fs w) <> [] ->
  exists w', vqcdeface_link bids_input_dir defacing_qc_dir defaced_img w = (w', Ok tt)
             /\ fs w' = fs w.
Proof.
  intros dir Hd Hl Ho Hf. unfold vqcdeface_link. fold dir.
  unfold bind, on_fs, get_fs, say, index.
  rewrite (mkdir_p_present _ _ Hd). cbn [fs shell_log messages reorganized stat_error].
  rewrite Hl. cbn [negb fs shell_log messages reorganized]. unfold ret at 1.
  cbn [fs shell_log messages reorganized stat_error].
  destruct (Fs.rglob bids_input_dir _ (fs w)) as [| img l]; [congruence |].
  cbn [nth_error]. unfold ret at 1. cbn [fs shell_log messages reorganized stat_error].
  rewrite Ho. cbn [negb]. eexists. split; reflexivity.
Qed.

(** X21. Staging the QC links of a scan is idempotent: when
    [vqcdeface_link] has returned once, running it again returns too and
    leaves the tree as it is: the links that exist are kept, none is made
    twice. *)
Theorem vqcdeface_link_idempotent
  (bids_input_dir defacing_qc_dir defaced_img : Path) (w w1 : World) :
  vqcdeface_link bids_input_dir defacing_qc_dir defaced_img w = (w1, Ok tt) ->
  exists w2, vqcdeface_link bids_input_dir defacing_qc_dir defaced_img w1 = (w2, Ok tt)
             /\ fs w2 = fs w1.
Proof.
  intros H. apply vqcdeface_link_settled; unfold vqcdeface_link in H;
    set (dir := defacing_qc_dir // Py.join "/" _) in *.
  all: apply bind_ok in H; destruct H as ([] & wa & Hmk & H); apply on_fs_ok in Hmk;
    apply mkdir_p_dirs in Hmk;
    apply bind_ok in H; destruct H as (ta & wa' & G & H); unfold get_fs in G;
    injection G as <- <-;
    apply bind_ok in H; destruct H as ([] & wb & Hl & H);
    apply bind_ok in H; destruct H as (tb & wb' & G & H); unfold get_fs in G;
    injection G as <- <-;
    apply bind_ok in H; destruct H as ([] & wc & Hs & H);
    unfold say in Hs; injection Hs as <-; cbn [fs] in H;
    apply bind_ok in H; destruct H as (img & wd & Hi & H);
    unfold index in Hi;
    destruct (nth_error (Fs.rglob bids_input_dir _ (fs wb)) 0) as [img' |] eqn:Hfound;
    [| discriminate]; unfold ret in Hi; injection Hi as <- <-;
    apply bind_ok in H; destruct H as (tc & wc' & G & H); unfold get_fs in G;
    injection G as <- <-; cbn [fs] in H.
  all: assert (B : (fs wb = fs wa \/ exists x, fs wb = (fs wa ++ [x])%list)
                   /\ Fs.is_symlink (dir // "defaced.nii.gz") (fs wb) = true)
    by (destruct (Fs.is_symlink (dir // "defaced.nii.gz") (fs wa)) eqn:S; simpl in Hl;
        [ injection Hl as <-; auto
        | apply on_fs_ok, symlink_to_made in Hl; destruct Hl as [E S']; rewrite S'; eauto ]).
  all: destruct B as [B Bl].
  all: assert (C : (fs w1 = fs wb \/ exists x, fs w1 = (fs wb ++ [x])%list)
                   /\ Fs.is_symlink (dir // "orig.nii.gz") (fs w1) = true)
    by (destruct (Fs.is_symlink (dir // "orig.nii.gz") (fs wb)) eqn:S; simpl in H;
        [ injection H as <-; auto
        | apply on_fs_ok, symlink_to_made in H; destruct H as [E S']; rewrite S'; eauto ]).
  all: destruct C as [C Cl].
  - apply Forall_forall. intros q Hq. rewrite Forall_forall in Hmk. specialize (Hmk q Hq).
    destruct B as [B | [x B]]; destruct C as [C | [y C]]; rewrite C, B;
      repeat apply lookup_app_l; exact Hmk.
  - destruct C as [C | [y C]]; rewrite C; [| apply is_symlink_app]; exact Bl.
  - exact Cl.
  - destruct C as [C | [y C]]; rewrite C; [| rewrite rglob_app];
      destruct (Fs.rglob bids_input_dir _ (fs wb)); try discriminate.
Qed.

Lemma vqcdeface_link_idempotent_witness :
  let qc := Sim.output // "defacing_QC" in
  let img := PathLib.of_str Sim.t2w_01 in
  let r := vqcdeface_link Sim.input_dir qc img (Sim.world_of Sim.input_tree) in
  r = (fst r, Ok tt)
  /\ Fs.lookup (qc // "sub-01" // "T2w" // "orig.nii.gz") (fs (fst r)) = Some (Link img)
  /\ exists w2, vqcdeface_link Sim.input_dir qc img (fst r) = (w2, Ok tt)
                /\ fs w2 = fs (fst r).
Proof.
  intros qc img r.
  assert (E : r = (fst r, Ok tt)) by (vm_compute; reflexivity).
  split; [exact E |]. split; [vm_compute; reflexivity |].
  exact (vqcdeface_link_idempotent Sim.input_dir qc img (Sim.world_of Sim.input_tree) (fst r) E).
Defined.

(** ** The swarm job (dsst_defacing_wf.py, lines 71-93) *)

Lemma find_filter {A} (f g : A -> bool) (l : list A) :
  (forall x, f x = true -> g x = true) -> find f (filter g l) = find f l.
Proof.
  intros H. induction l as [| a l IH]; simpl; [reflexivity |].
  destruct (g a) eqn:G; simpl.
  - now rewrite IH.
  - destruct (f a) eqn:F; [| exact IH]. apply H in F. congruence.
Qed.

Lemma find_filter_none {A} (f g : A -> bool) (l : list A) :
  (forall x, f x = true -> g x = false) -> find f (filter g l) = None.
Proof.
  intros H. induction l as [| a l IH]; simpl; [reflexivity |].
  destruct (g a) eqn:G; simpl; [| exact IH].
  destruct (f a) eqn:F; [| exact IH]. apply H in F. congruence.
Qed.

Lemma strict_prefix_sibling (l : list string) (a b : string) :
  Fs.strict_prefix (l ++ [a]) (l ++ [b]) = false.
Proof.
  induction l as [| x l IH]; simpl.
  - now rewrite andb_false_r.
  - now rewrite IH, andb_false_r.
Qed.

(** Removing a directory leaves its siblings alone. *)
Lemma rmtree_sibling (d : Path) (a b : string) (t t' : FS) :
  a <> b ->
  Fs.rmtree (PathLib.join d (mkPath false [a])) t = Ok t' ->
  Fs.exists_ (PathLib.join d (mkPath false [a])) t' = false
  /\ Fs.lookup (PathLib.join d (mkPath false [b])) t'
     = Fs.lookup (PathLib.join d (mkPath false [b])) t.
Proof.
  intros N. unfold Fs.rmtree.
  destruct (Fs.lookup _ t) as [[| c | x] |]; try discriminate.
  intros [= <-]. unfold Fs.exists_, Fs.lookup. split.
  - rewrite find_filter_none; [reflexivity |].
    intros e E. now rewrite E.
  - rewrite find_filter; [reflexivity |].
    intros e E. apply path_eqb_eq in E. rewrite E.
    unfold PathLib.join, PathLib.eqb, Fs.is_under. cbn [anchored parts].
    rewrite strict_prefix_sibling, andb_false_r, orb_false_r.
    destruct (list_eq_dec string_dec _ _) as [X | X]; [| now rewrite andb_false_r].
    apply app_inv_head in X. congruence.
Qed.

(** X15. When the output directory can be made, the swarm file written and
    the log directory of an earlier submission removed, [start_swarm_job]
    runs one command, the submission of the swarm file.  At that point the
    file holds one line per [sub-*] entry of the input directory, in order,
    and no [swarm_logs] is left; the function returns when the return code
    is zero and raises otherwise. *)
Theorem start_swarm_job_submits
  (shell : string -> FS -> FS * outcome) (script_path : string)
  (input_dir output_dir : Path) (no_clean : bool) (w : World) (t1 t2 t3 : FS) :
  let lines :=
    map (fun subj_dir =>
           "python " ++ script_path ++ " -i " ++ PathLib.to_str input_dir
           ++ " -o " ++ PathLib.to_str output_dir ++ " -p " ++ PathLib.name subj_dir
           ++ (if no_clean then " --no-clean" else ""))
        (Fs.glob input_dir (fun n => Py.startswith n "sub-") (fs w)) in
  let swarm_file := output_dir // "defacing_subject_level.swarm" in
  let logs := output_dir // "swarm_logs" in
  let cmd := "swarm -f " ++ PathLib.to_str swarm_file ++ " --merge-output --logdir "
             ++ PathLib.to_str output_dir ++ "/swarm_logs" in
  Fs.mkdir_p output_dir (fs w) = Ok t1 ->
  Fs.write_file swarm_file (Py.join Py.nl lines) t1 = Ok t2 ->
  (if Fs.exists_ logs t2 then Fs.rmtree logs t2 else Ok t2) = Ok t3 ->
  exists w',
    start_swarm_job shell script_path input_dir output_dir no_clean w
    = (w', if Nat.eqb (returncode (snd (shell cmd t3))) 0 then Ok tt
           else Raise NonZeroReturnCode)
    /\ shell_log w' = (shell_log w ++ [cmd])%list
    /\ fs w' = fst (shell cmd t3)
    /\ Fs.exists_ logs t3 = false
    /\ Fs.lookup swarm_file t3 = Some (File (Py.join Py.nl lines)).
Proof.
  intros lines swarm_file logs cmd Hmk Hwr Hrm.
  assert (Hfile : Fs.lookup swarm_file t2 = Some (File (Py.join Py.nl lines))).
  { revert Hwr. unfold Fs.write_file. destruct (parts swarm_file); [discriminate |].
    destruct (negb _); [discriminate |].
    destruct (Fs.lookup swarm_file t1) as [[| c | x] |]; try discriminate;
      intros [= <-]; apply lookup_put. }
  assert (Hex : Fs.exists_ swarm_file t2 = true) by (unfold Fs.exists_; now rewrite Hfile).
  assert (P : Fs.exists_ logs t3 = false
              /\ Fs.lookup swarm_file t3 = Some (File (Py.join Py.nl lines))).
  { destruct (Fs.exists_ logs t2) eqn:E.
    - change logs with (PathLib.join output_dir (mkPath false ["swarm_logs"])) in Hrm.
      apply (rmtree_sibling _ _ "defacing_subject_level.swarm") in Hrm; [| discriminate].
      destruct Hrm as [R1 R2]. split; [exact R1 |].
      change swarm_file
        with (PathLib.join output_dir (mkPath false ["defacing_subject_level.swarm"])).
      rewrite R2. exact Hfile.
    - injection Hrm as <-. split; [exact E | exact Hfile]. }
  unfold start_swarm_job, bind, get_fs, on_fs. cbn [fs shell_log messages reorganized stat_error].
  fold lines. fold swarm_file. fold logs. fold cmd.
  rewrite Hmk. cbn [fs shell_log messages reorganized stat_error].
  rewrite Hwr. cbn [fs shell_log messages reorganized stat_error].
  rewrite Hex.
  destruct (Fs.exists_ logs t2) eqn:E; cbn [fs shell_log messages reorganized stat_error].
  - rewrite Hrm. unfold run_command. cbn [fs shell_log messages reorganized stat_error].
    destruct (shell cmd t3) as [t4 o]. cbn [fst snd].
    destruct (Nat.eqb (returncode o) 0); eexists; (split; [reflexivity |]);
      cbn [fs shell_log]; repeat split; apply P.
  - injection Hrm as <-. unfold ret at 1. unfold run_command.
    cbn [fs shell_log messages reorganized stat_error].
    destruct (shell cmd t2) as [t4 o]. cbn [fst snd].
    destruct (Nat.eqb (returncode o) 0); eexists; (split; [reflexivity |]);
      cbn [fs shell_log]; repeat split; apply P.
Qed.

Lemma start_swarm_job_submits_witness :
  let tree := (Sim.input_tree ++ [(Sim.output // "swarm_logs", Dir);
                                  (Sim.output // "swarm_logs" // "old.o", File "log")])%list in
  let r := start_swarm_job Sim.tools_ok "/opt/dsst_defacing_wf.py" Sim.input_dir Sim.output true
             (Sim.world_of tree) in
  snd r = Ok tt
  /\ shell_log (fst r)
     = ["swarm -f /out/defacing_subject_level.swarm --merge-output --logdir /out/swarm_logs"]
  /\ Fs.exists_ (Sim.output // "swarm_logs" // "old.o") (fs (fst r)) = false
  /\ Fs.lookup (Sim.output // "defacing_subject_level.swarm") (fs (fst r))
     = Some (File ("python /opt/dsst_defacing_wf.py -i /data/bids -o /out -p sub-01 --no-clean"
                   ++ Py.nl
                   ++ "python /opt/dsst_defacing_wf.py -i /data/bids -o /out -p sub-02 --no-clean")).
Proof.
  intros tree r.
  edestruct (start_swarm_job_submits Sim.tools_ok "/opt/dsst_defacing_wf.py" Sim.input_dir
               Sim.output true (Sim.world_of tree)) as [w' [H1 [H2 [H3 _]]]].
  - vm_compute. reflexivity.
  - vm_compute. reflexivity.
  - vm_compute. reflexivity.
  - subst r. rewrite H1. cbn [fst snd]. rewrite H2, H3. vm_compute. repeat split.
Defined.

(** ** The 3-D renders (deface.py, lines 44-58) *)

Lemma startswith_app (a b : string) : Py.startswith (a ++ b) a = true.
Proof.
  induction a as [| x a IH]; simpl; [now destruct b | now rewrite Ascii.eqb_refl].
Qed.

Lemma render_one_outcome
  (shell : string -> FS -> FS * outcome) (defaced_img render_outdir : Path)
  (item : nat * (Z * Z * Z)) (w : World) :
  exists w' r l,
    Render.render_one shell defaced_img render_outdir item w = (w', r)
    /\ shell_log w' = (shell_log w ++ l)%list
    /\ List.length l <= 1
    /\ Forall (fun c => Py.startswith c "module load fsl; fsleyes render --scene 3d -rot "
                        = true) l
    /\ stat_error w' = stat_error w
    /\ ((forall tree, stat_error w (Render.outfile_of render_outdir (fst item)) tree = None) ->
        r = Ok tt).
Proof.
  assert (C : forall cmd, Render.fsleyes_render_cmd (snd item)
                            (Render.outfile_of render_outdir (fst item)) defaced_img = cmd ->
                          Forall (fun c => Py.startswith c
                                             "module load fsl; fsleyes render --scene 3d -rot "
                                           = true) [cmd]).
  { intros cmd <-. constructor; [| constructor].
    unfold Render.fsleyes_render_cmd. destruct (snd item) as [[yaw pitch] roll].
    apply startswith_app. }
  unfold Render.render_one, bind at 1, path_exists at 1.
  destruct (Fs.exists_ _ (fs w)) eqn:X.
  - exists w, (Ok tt), []. rewrite app_nil_r. repeat split; auto.
  - destruct (stat_error w _ (fs w)) as [text |] eqn:S0.
    + exists w, (Raise OSError), []. rewrite app_nil_r. repeat split; auto.
      intros N. now rewrite N in S0.
    + cbn [negb]. unfold bind at 1, say at 1, bind at 1, utils_run_command.
      cbn [fs shell_log messages reorganized stat_error].
      destruct (shell _ (fs w)) as [t o] eqn:S. cbn [snd].
      set (cmd := Render.fsleyes_render_cmd _ _ _) in *.
      assert (T : forall w1 : World,
                 fs w1 = t -> shell_log w1 = (shell_log w ++ [cmd])%list ->
                 stat_error w1 = stat_error w ->
                 exists w' r l,
                   (created <- path_exists (Render.outfile_of render_outdir (fst item)) ;;
                    say STDOUT ("Has the render been created? " ++ Render.py_bool created)) w1
                   = (w', r)
                   /\ shell_log w' = (shell_log w ++ l)%list
                   /\ List.length l <= 1
                   /\ Forall (fun c => Py.startswith c
                                         "module load fsl; fsleyes render --scene 3d -rot "
                                       = true) l
                   /\ stat_error w' = stat_error w
                   /\ ((forall tree,
                          stat_error w (Render.outfile_of render_outdir (fst item)) tree = None)
                       -> r = Ok tt)).
      { intros w1 F L E. unfold bind, path_exists, say. rewrite E.
        destruct (Fs.exists_ _ (fs w1)).
        - eexists. exists (Ok tt), [cmd]. cbn [shell_log stat_error].
          repeat split; auto.
        - destruct (stat_error w _ (fs w1)) as [text |] eqn:S1.
          + exists w1, (Raise OSError), [cmd]. repeat split; auto.
            intros N. now rewrite N in S1.
          + eexists. exists (Ok tt), [cmd]. cbn [shell_log stat_error].
            repeat split; auto. }
      destruct (Py.truthy (err o)); [unfold bind at 1, say at 1 | unfold bind at 1, ret at 1];
        cbn [fs shell_log messages reorganized stat_error]; apply T; reflexivity.
Qed.

(** X23. [generate_3d_renders] runs at most two commands, each a render
    command, whether it returns or raises; the only thing that makes it
    raise is [exists] raising on a render file, so it returns when [stat]
    has no such error for the render files. *)
Theorem generate_3d_renders_outcome
  (shell : string -> FS -> FS * outcome) (defaced_img render_outdir : Path) (w : World) :
  exists w' r l,
    Render.generate_3d_renders shell defaced_img render_outdir w = (w', r)
    /\ shell_log w' = (shell_log w ++ l)%list
    /\ List.length l <= 2
    /\ Forall (fun c => Py.startswith c "module load fsl; fsleyes render --scene 3d -rot "
                        = true) l
    /\ ((forall idx tree, stat_error w (Render.outfile_of render_outdir idx) tree = None) ->
        r = Ok tt).
Proof.
  unfold Render.generate_3d_renders.
  change (Render.enumerate Render.rotations)
    with [(0, (45, 5, 10)%Z); (1, (-45, 5, 10)%Z)].
  simpl for_each. unfold bind.
  destruct (render_one_outcome shell defaced_img render_outdir (0, (45, 5, 10)%Z) w)
    as [w1 [r1 [l1 [E1 [L1 [N1 [F1 [S1 R1]]]]]]]].
  rewrite E1. destruct r1 as [[] | e].
  - destruct (render_one_outcome shell defaced_img render_outdir (1, (-45, 5, 10)%Z) w1)
      as [w2 [r2 [l2 [E2 [L2 [N2 [F2 [S2 R2]]]]]]]].
    rewrite E2. exists w2, r2, (l1 ++ l2)%list.
    split; [now destruct r2 as [[] | e] |].
    split; [now rewrite L2, L1, app_assoc |].
    split; [rewrite length_app; lia |]. split; [now apply Forall_app |].
    intros H. apply R2. intros tree. rewrite S1. apply H.
  - exists w1, (Raise e), l1. split; [reflexivity |]. split; [exact L1 |].
    split; [lia |]. split; [exact F1 |].
    intros H. apply R1. intros tree. apply H.
Qed.

(** A render file whose name the file system refuses: [exists] raises at
    the first pass of the loop, before any command. *)
Example generate_3d_renders_name_too_long :
  let outdir := PathLib.of_str "/out" // Sim.long_name in
  let img := PathLib.of_str "/out/anat/sub-01_T1w.nii.gz" in
  Render.generate_3d_renders Sim.tools_ok img outdir (Sim.world_with_limits [])
  = (Sim.world_with_limits [], Raise OSError).
Proof. vm_compute. reflexivity. Qed.

(** X22. Renders that exist are not made again: with both
    [defaced_render_00.png] and [defaced_render_01.png] in the output
    directory, [generate_3d_renders] runs no command and prints nothing. *)
Theorem generate_3d_renders_skips_existing
  (shell : string -> FS -> FS * outcome) (defaced_img render_outdir : Path) (w : World) :
  Fs.exists_ (render_outdir // "defaced_render_00.png") (fs w) = true ->
  Fs.exists_ (render_outdir // "defaced_render_01.png") (fs w) = true ->
  Render.generate_3d_renders shell defaced_img render_outdir w = (w, Ok tt).
Proof.
  intros H0 H1. unfold Render.generate_3d_renders.
  change (Render.enumerate Render.rotations)
    with [(0, (45, 5, 10)%Z); (1, (-45, 5, 10)%Z)].
  simpl for_each. unfold bind, Render.render_one, bind, path_exists. cbn [fst].
  change (Render.outfile_of render_outdir 0) with (render_outdir // "defaced_render_00.png").
  change (Render.outfile_of render_outdir 1) with (render_outdir // "defaced_render_01.png").
  rewrite H0. simpl. now rewrite H1.
Qed.

Lemma generate_3d_renders_skips_existing_witness :
  let outdir := PathLib.of_str "/out/renders" in
  let img := PathLib.of_str "/out/anat/sub-01_T1w.nii.gz" in
  let w0 := Sim.world_of [(outdir, Dir)] in
  let render cmd tree :=
    match Sim.arg_after "--outfile" (Py.split " " cmd) with
    | Some f => ((tree ++ [(PathLib.of_str f, File "png")])%list, Sim.quiet)
    | None => (tree, Sim.quiet)
    end in
  let w1 := fst (Render.generate_3d_renders render img outdir w0) in
  List.length (shell_log w1) = 2
  /\ Fs.exists_ (outdir // "defaced_render_00.png") (fs w1) = true
  /\ Fs.exists_ (outdir // "defaced_render_01.png") (fs w1) = true
  /\ Render.generate_3d_renders render img outdir w1 = (w1, Ok tt).
Proof.
  intros outdir img w0 render w1.
  split; [vm_compute; reflexivity |].
  assert (E0 : Fs.exists_ (outdir // "defaced_render_00.png") (fs w1) = true)
    by (vm_compute; reflexivity).
  assert (E1 : Fs.exists_ (outdir // "defaced_render_01.png") (fs w1) = true)
    by (vm_compute; reflexivity).
  split; [exact E0 |]. split; [exact E1 |].
  exact (generate_3d_renders_skips_existing render img outdir w1 E0 E1).
Defined.

(** ** The driver on an empty dataset, and subjects without sessions *)

Lemma removelast_shorter {A} (l : list A) : l <> [] -> removelast l <> l.
Proof.
  intros N E. destruct l as [| a l]; [congruence |].
  pose proof (app_removelast_last a N) as H. rewrite E in H.
  apply (f_equal (@List.length A)) in H. rewrite length_app in H. simpl in H. lia.
Qed.

Lemma write_file_again (p : Path) (c c' : string) (t t' : FS) :
  Fs.write_file p c t = Ok t' -> Fs.write_file p c' t' = Ok (Fs.put p c' t').
Proof.
  unfold Fs.write_file. destruct (parts p) as [| x l] eqn:P; [discriminate |].
  destruct (Fs.parent_ready p t) eqn:R; [| discriminate]. simpl.
  assert (N : PathLib.parent p <> p).
  { intros E. apply (f_equal parts) in E. simpl in E.
    apply removelast_shorter in E; [exact E | congruence]. }
  intros H.
  assert (E : t' = Fs.put p c t)
    by (destruct (Fs.lookup p t) as [[| c0 | x0] |]; try discriminate; now injection H).
  subst t'. unfold Fs.parent_ready in *.
  rewrite (lookup_put_other _ _ _ _ N), R, lookup_put. reflexivity.
Qed.

(** X16. With no subject given and no [sub-*] entry in the input directory,
    the driver processes nothing and writes an empty report: it returns, no
    command has been run, and [failed_afni_refacer_output.txt] is an empty
    file. *)
Theorem main_empty_dataset
  (shell : string -> FS -> FS * outcome) (gzip_bytes : string -> string)
  (script_path : string) (crawl : Path -> Path -> FS -> FS * result mapping)
  (cmdline : args) (w : World) (m : mapping) (t1 t2 t3 : FS) :
  arg_swarm cmdline = false ->
  Py.truthy_opt (arg_subj_id cmdline) = false ->
  Py.truthy_opt (arg_sess_id cmdline) = false ->
  crawl (arg_input cmdline) (arg_output cmdline) (fs w) = (t1, Ok m) ->
  Fs.mkdir_p (arg_output cmdline // "bids_defaced") t1 = Ok t2 ->
  Fs.glob (arg_input cmdline) (fun n => Py.startswith n "sub-") t2 = [] ->
  Fs.write_file (report_path (arg_output cmdline)) "" t2 = Ok t3 ->
  exists w',
    main shell gzip_bytes script_path crawl cmdline w = (w', Ok tt)
    /\ Fs.lookup (report_path (arg_output cmdline)) (fs w') = Some (File "")
    /\ shell_log w' = shell_log w.
Proof.
  intros Hsw Hs Hd Hc Hmk Hg Hwr.
  unfold main, get_args. rewrite Hs, Hd. cbn [andb negb].
  unfold bind at 1, ret at 1. cbv beta iota. rewrite Hsw.
  unfold bind at 1. rewrite Hc.
  unfold bind at 1, on_fs at 1. cbn [fs shell_log messages reorganized stat_error]. rewrite Hmk.
  unfold bind at 1, subj_sess_list. rewrite Hs. cbn [andb negb].
  unfold bind at 1, get_fs at 1. cbn [fs shell_log messages reorganized stat_error]. rewrite Hg.
  cbn [all_units]. unfold ret at 1. cbn [process_units].
  unfold bind at 1, ret at 1. unfold bind at 1, on_fs at 1.
  cbn [fs shell_log messages reorganized stat_error]. rewrite Hwr.
  cbn [all_str]. unfold bind at 1, ret at 1. unfold on_fs.
  cbn [fs shell_log messages reorganized stat_error].
  change (Py.join Py.nl []) with "". rewrite (write_file_again _ _ _ _ _ Hwr).
  eexists. split; [reflexivity |]. cbn [fs shell_log]. split; [apply lookup_put | reflexivity].
Qed.

Lemma main_empty_dataset_witness :
  let a := mkArgs (PathLib.of_str "/data/empty") Sim.output None None false false in
  let r := main Sim.tools_ok Sim.gz "dsst_defacing_wf.py" Sim.crawl a
             (Sim.world_of Sim.input_tree) in
  snd r = Ok tt
  /\ Fs.lookup (report_path Sim.output) (fs (fst r)) = Some (File "")
  /\ shell_log (fst r) = [].
Proof.
  intros a r.
  assert (X : exists w',
             main Sim.tools_ok Sim.gz "dsst_defacing_wf.py" Sim.crawl a
               (Sim.world_of Sim.input_tree) = (w', Ok tt)
             /\ Fs.lookup (report_path (arg_output a)) (fs w') = Some (File "")
             /\ shell_log w' = shell_log (Sim.world_of Sim.input_tree))
    by (eapply main_empty_dataset; vm_compute; reflexivity).
  destruct X as [w' [H1 [H2 H3]]].
  subst r. rewrite H1. cbn [fst snd]. split; [reflexivity |]. split; [exact H2 | exact H3].
Defined.

(** X26. A subject without sessions is resolved to two units, both with the
    empty session: [get_sess_dirs] goes through the keys of the subject's
    entry, which are [primary_t1] and [others], and neither starts with
    [ses-]. *)
Theorem flat_subject_resolved_twice
  (a : args) (mapping_dict : mapping) (u : scans) (w : World) :
  Py.truthy_opt (arg_subj_id a) = true ->
  Py.truthy_opt (arg_sess_id a) = false ->
  getitem mapping_dict (PathLib.name (arg_input a // Py.fmt_opt (arg_subj_id a))) w
  = (w, Ok (Flat u)) ->
  subj_sess_list a mapping_dict w
  = (w, Ok [(arg_input a // Py.fmt_opt (arg_subj_id a), None);
            (arg_input a // Py.fmt_opt (arg_subj_id a), None)]).
Proof.
  intros Hs Hd Hg. unfold subj_sess_list. rewrite Hs, Hd. cbn [andb negb].
  unfold get_sess_dirs, bind. rewrite Hg. reflexivity.
Qed.

Lemma flat_subject_resolved_twice_witness :
  let a := mkArgs Sim.input_dir Sim.output (Some "sub-01") None false false in
  Py.truthy_opt (arg_subj_id a) = true
  /\ subj_sess_list a Sim.mapping_dict (Sim.world_of Sim.input_tree)
     = (Sim.world_of Sim.input_tree,
        Ok [(PathLib.of_str "/data/bids/sub-01", None);
            (PathLib.of_str "/data/bids/sub-01", None)]).
Proof.
  intros a. split; [reflexivity |].
  exact (flat_subject_resolved_twice a Sim.mapping_dict
           (mkScans (Some Sim.t1w_01) [Sim.t1w_01; Sim.t2w_01]) (Sim.world_of Sim.input_tree)
           eq_refl eq_refl eq_refl).
Defined.

(** ** Cleanup by the reorganizer and by [rename_afni_workdir] *)

Lemma rmtree_gone (p : Path) (t t' : FS) : Fs.rmtree p t = Ok t' -> Fs.exists_ p t' = false.
Proof.
  unfold Fs.rmtree. destruct (Fs.lookup p t) as [[| c | x] |]; try discriminate.
  intros [= <-]. unfold Fs.exists_, Fs.lookup.
  rewrite find_filter_none; [reflexivity |]. intros e E. now rewrite E.
Qed.

(** X25. Without [--no-clean], an [anat] directory that the reorganizer has
    gone through has no [work_dir] left: the archive of the working
    directory and of the QC directories is removed at the end. *)
Theorem reorganize_anat_dir_cleans
  (gz : string -> string) (input_bids_dir : Path) (primary_scan : option string)
  (bids_defaced_outdir anat_dir : Path) (w w' : World) :
  reorganize_anat_dir gz input_bids_dir primary_scan bids_defaced_outdir false anat_dir w
  = (w', Ok tt) ->
  Fs.exists_ (anat_dir // "work_dir") (fs w') = false.
Proof.
  unfold reorganize_anat_dir. intros H.
  do 7 (apply bind_ok in H; destruct H as (? & ? & _ & H)).
  simpl in H. apply on_fs_ok in H. eapply rmtree_gone, H.
Qed.

Lemma reorganize_anat_dir_cleans_witness :
  let anat := Sim.bids_defaced_outdir // "sub-01" // "anat" in
  let w := fst (run_afni_refacer Sim.tools_ok (Some Sim.t1w_01) [Sim.t2w_01]
                  (PathLib.of_str "/data/bids/sub-01") "" Sim.bids_defaced_outdir "standard"
                  (Sim.world_of Sim.input_tree)) in
  let r := reorganize_anat_dir Sim.gz Sim.input_dir (Some Sim.t1w_01) Sim.bids_defaced_outdir
             false anat w in
  r = (fst r, Ok tt)
  /\ Fs.exists_ (anat // "workdir_sub-01_acq-mprage_T1w") (fs w) = true
  /\ Fs.exists_ (anat // "sub-01_T2w.nii.gz") (fs (fst r)) = true
  /\ Fs.exists_ (anat // "work_dir") (fs (fst r)) = false.
Proof.
  intros anat w r.
  assert (E : r = (fst r, Ok tt)) by (vm_compute; reflexivity).
  split; [exact E |]. split; [vm_compute; reflexivity |]. split; [vm_compute; reflexivity |].
  exact (reorganize_anat_dir_cleans Sim.gz Sim.input_dir (Some Sim.t1w_01)
           Sim.bids_defaced_outdir anat w (fst r) E).
Defined.

(** X27. The glob that finds the working directory ([*work_refacer*]) is
    wider than the names the cleanup keeps ([__work*], [*QC],
    [*defacing_pipeline.log]): a working directory whose name is not
    kept is itself among the paths that [rename_afni_workdir] hands to
    [rm -rf] before it renames it. *)
Theorem rename_afni_workdir_deletes_unkept_workdir (workdir_path : Path) (tree : FS) :
  In workdir_path (Fs.children (PathLib.parent workdir_path) tree) ->
  Py.startswith (PathLib.name workdir_path) "__work" = false ->
  Py.endswith (PathLib.name workdir_path) "QC" = false ->
  Py.endswith (PathLib.name workdir_path) "defacing_pipeline.log" = false ->
  In (PathLib.to_str workdir_path) (to_be_deleted_files workdir_path tree).
Proof.
  intros Hin H1 H2 H3. unfold to_be_deleted_files, Fs.glob. rewrite filter_all.
  apply in_map, filter_In. split; [exact Hin |].
  unfold kept_name. now rewrite H1, H2, H3.
Qed.

Lemma rename_afni_workdir_deletes_unkept_workdir_witness :
  let anat := PathLib.of_str "/out/bids_defaced/sub-01/anat" in
  let workdir := anat // "old_work_refacer.sub-01_T1w" in
  let tree := [(anat, Dir); (workdir, Dir)] in
  Py.contains (PathLib.name workdir) "work_refacer" = true
  /\ In (PathLib.to_str workdir) (to_be_deleted_files workdir tree)
  /\ snd (rename_afni_workdir Sim.tools_ok workdir (Sim.world_of tree)) = Raise OSError.
Proof.
  intros anat workdir tree. split; [reflexivity |]. split; [| reflexivity].
  apply (rename_afni_workdir_deletes_unkept_workdir workdir tree); try reflexivity.
  vm_compute. auto.
Defined.
